(** * wallex-go: the Number type and the REST client, embedded in Rocq

    The Go package [wallex] is a thin client over one REST API.  This file
    embeds its two source files:

    - the string-backed decimal [Number] with its JSON decoder;
    - the [Client] of [client.go], its constructor [New], the fifteen
      endpoint methods and the status-code-to-error mapping.

    What the package calls in Go's standard library ([encoding/json],
    [strconv], [fmt], [net/http], [net/url]) is not part of the repository.
    It enters the development as interfaces ([NumberLib], [Payloads],
    [Net]) whose operations the embedded code calls, together with the few
    documented facts about them that a property needs ([NumberLibSpec],
    [NetSpec]).  Every property of the package is proved for all
    implementations of the interfaces.  Two implementations are given to
    run the code on concrete inputs: [Ref], a model of the numeric library
    on IEEE 754 binary64, and [Stub], a network stub with canned
    answers.  *)

From Stdlib Require Import ZArith String Ascii List Lia.
From Stdlib.Strings Require Import Byte.
From stdpp Require Import base gmap strings list pretty.

Set Warnings "-register-all".
Local Open Scope string_scope.
Local Open Scope Z_scope.
Local Open Scope list_scope.

Global Instance byte_eq_dec : EqDecision byte := Byte.byte_eq_dec.

(** ** Errors raised by the standard library

    The package only ever tests them against [nil] or stores them as the
    [Cause] of its own [Error]. *)
Inductive GoError :=
  | json_SyntaxError
  | json_UnmarshalTypeError (value : string)
  | strconv_ErrSyntax
  | strconv_ErrRange
  | lib_error (text : string).

(** ** JSON documents

    The top-level value that [encoding/json] finds in a payload once the
    payload has passed its syntax check.  A number is kept as its literal,
    a string as its decoded contents. *)
Inductive JSON :=
  | JNull
  | JBool (b : bool)
  | JNumber (lit : string)
  | JString (s : string)
  | JArray (xs : list JSON)
  | JObject (kvs : list (string * JSON)).

(** ** What Number calls in the standard library *)
Class NumberLib := {
  float64 : Type;
  float64_zero : float64;
  (** [strconv.ParseFloat(s, 64)]: the value and the error. *)
  strconv_ParseFloat : string → float64 * option GoError;
  (** [fmt.Sprintf("%f", f)]. *)
  fmt_Sprintf_f : float64 → string;
  (** The syntax check and scan of [encoding/json]: [None] for a payload
      that is not one well-formed JSON value. *)
  json_scan : list byte → option JSON;
}.

(** Documented behaviour of [strconv] and [fmt] that the invariant of
    [Number] rests on: the empty string is a syntax error with value 0, and
    whatever the verb [%f] prints ([-12.500000], [+Inf], [NaN]) is accepted
    by [ParseFloat]. *)
Class NumberLibSpec `{NumberLib} : Prop := {
  ParseFloat_empty :
    strconv_ParseFloat "" = (float64_zero, Some strconv_ErrSyntax);
  ParseFloat_Sprintf_f :
    ∀ f : float64, (strconv_ParseFloat (fmt_Sprintf_f f)).2 = None;
}.

Module Number.
Section number.
Context {lib : NumberLib}.

(** [json.Unmarshal(data, &s)] for [var s string]: a JSON string is
    stored, [null] leaves [s] as it is, every other value is a type
    error, and malformed input is a syntax error. *)
Definition json_Unmarshal_string (data : list byte) (s : string)
  : string * option GoError :=
  match json_scan data with
  | None => (s, Some json_SyntaxError)
  | Some JNull => (s, None)
  | Some (JString v) => (v, None)
  | Some (JBool _) => (s, Some (json_UnmarshalTypeError "bool"))
  | Some (JNumber _) => (s, Some (json_UnmarshalTypeError "number"))
  | Some (JArray _) => (s, Some (json_UnmarshalTypeError "array"))
  | Some (JObject _) => (s, Some (json_UnmarshalTypeError "object"))
  end.

(** [json.Unmarshal(data, &f)] for [var f float64]: a JSON number is
    stored when [ParseFloat] accepts its literal (a literal out of range
    is a type error), [null] leaves [f] as it is. *)
Definition json_Unmarshal_float64 (data : list byte) (f : float64)
  : float64 * option GoError :=
  match json_scan data with
  | None => (f, Some json_SyntaxError)
  | Some JNull => (f, None)
  | Some (JNumber lit) =>
      match strconv_ParseFloat lit with
      | (v, None) => (v, None)
      | (_, Some _) => (f, Some (json_UnmarshalTypeError "number"))
      end
  | Some (JBool _) => (f, Some (json_UnmarshalTypeError "bool"))
  | Some (JString _) => (f, Some (json_UnmarshalTypeError "string"))
  | Some (JArray _) => (f, Some (json_UnmarshalTypeError "array"))
  | Some (JObject _) => (f, Some (json_UnmarshalTypeError "object"))
  end.

(** [type Number string] *)
Definition Number := string.

(** [func (n Number) IsUndefined() bool] *)
Definition IsUndefined (n : Number) : bool := bool_decide (n = "").

(** [func (n Number) Float() float64]: the error of [ParseFloat] is
    dropped. *)
Definition Float (n : Number) : float64 := (strconv_ParseFloat n).1.

(** [func (n *Number) UnmarshalJSON(data []byte) error].  The receiver is
    passed in and its new contents are returned next to the error. *)
Definition UnmarshalJSON (n : Number) (data : list byte)
  : Number * option GoError :=
  let n : Number := "" in
  match json_Unmarshal_string data "" with
  | (s, None) =>
      match strconv_ParseFloat s with
      | (_, None) => (s, None)
      | (_, Some _) => (n, None)
      end
  | (_, Some _) =>
      match json_Unmarshal_float64 data float64_zero with
      | (f, None) => (fmt_Sprintf_f f, None)
      | (_, Some _) => (n, None)
      end
  end.
End number.
End Number.

(** ** The network part of the standard library *)

(** A Go pointer: [nil] or the address of a value. *)
Definition ptr (A : Type) : Type := option A.

(** [*http.Client] values, compared by identity: the process-wide
    [http.DefaultClient] and the clients a caller allocates. *)
Inductive http_Client :=
  | http_DefaultClient
  | http_client_at (addr : positive).

Global Instance http_Client_eq_dec : EqDecision http_Client.
Proof. solve_decision. Defined.

Record Request := {
  req_Method : string;
  req_URL : string;
  req_Header : list (string * string);
  req_Body : option (list byte);
}.

Record Response := {
  StatusCode : Z;
  Body : list byte;
}.

(** What a call leaves behind: a request built by [http.NewRequest], and
    an exchange on a transport with what the transport answered. *)
Inductive event :=
  | ev_NewRequest (method url : string) (body : option (list byte))
  | ev_Do (client : http_Client) (req : Request) (answer : GoError + Response).

(** The environment of the process: its variables, and how each transport
    answers a request. *)
Record World := {
  os_Getenv : string → string;
  RoundTrip : http_Client → Request → GoError + Response;
}.

(** Calls read the world and log their events. *)
Definition IO (A : Type) : Type := World → A * list event.

Global Instance IO_ret : MRet IO := λ A a _, (a, []).
Global Instance IO_bind : MBind IO := λ A B f m w,
  let '(a, t1) := m w in let '(b, t2) := f a w in (b, t1 ++ t2).

(** [time.Time], as far as the client uses it: [t.Unix()] and
    [time.Unix(sec, 0)]. *)
Record Time := { time_sec : Z; time_nsec : Z }.
Definition Time_Unix (t : Time) : Z := time_sec t.
Definition time_Unix (sec nsec : Z) : Time :=
  {| time_sec := sec; time_nsec := nsec |}.

(** A function that returns normally or panics with an index out of
    range. *)
Inductive outcome (A : Type) :=
  | Returned (a : A)
  | IndexOutOfRange (index length : nat).
Arguments Returned {A} a.
Arguments IndexOutOfRange {A} index length.

(** ** Data of the client *)

Abbreviation Number := Number.Number.

(** [type Market struct] with its anonymous [Stats] and [Direction]. *)
Record Market_Stats_Direction := {
  Direction_Sell : Z;
  Direction_Buy : Z;
}.

Record Market_Stats := {
  Stats_BidPrice : Number;
  Stats_AskPrice : Number;
  Stats_Change24H : Number;
  Stats_Change7D : Number;
  Stats_Volume24H : Number;
  Stats_Volume7D : Number;
  Stats_QuoteVolume24H : Number;
  Stats_HighPrice24H : Number;
  Stats_LowPrice24H : Number;
  Stats_LastPrice : Number;
  Stats_LastQty : Number;
  Stats_LastTradeSide : string;
  Stats_BidVolume : Number;
  Stats_AskVolume : Number;
  Stats_BidCount : Number;
  Stats_AskCount : Number;
  Stats_Direction : Market_Stats_Direction;
}.

Record Market := {
  Market_Symbol : string;
  Market_BaseAsset : string;
  Market_BaseAssetPrecision : Z;
  Market_QuoteAsset : string;
  Market_QuotePrecision : Z;
  Market_FarsiName : string;
  Market_FarsiBaseAsset : string;
  Market_FarsiQuoteAsset : string;
  Market_StepSize : Z;
  Market_TickSize : Z;
  Market_MinQty : Number;
  Market_MinNotional : Number;
  Market_Stats_ : Market_Stats;
  Market_CreatedAt : Time;
}.

(** [type Candle struct] *)
Record Candle := {
  Candle_Timestamp : Time;
  Candle_Open : Number;
  Candle_High : Number;
  Candle_Low : Number;
  Candle_Close : Number;
  Candle_Volume : Number;
}.

(** [type OrderParams struct], with the JSON key of each field in its tag
    and [omitempty] on the last one only. *)
Record OrderParams := {
  OrderParams_Symbol : string;     (* json:"symbol" *)
  OrderParams_Type : string;       (* json:"type" *)
  OrderParams_Side : string;       (* json:"side" *)
  OrderParams_Price : Number;      (* json:"price" *)
  OrderParams_Quantity : Number;   (* json:"quantity" *)
  OrderParams_ClientID : string;   (* json:"client_id,omitempty" *)
}.

(** The envelope [struct { Result A `json:"result"` }] that the methods
    decode into, and the anonymous structures inside it. *)
Record Envelope (A : Type) := { Result : A }.
Arguments Result {A} _.

Record MarketsResult := { Symbols : gmap string (ptr Market) }.

(** The structure [Candles] decodes into; its fields are [T], [O], [H],
    [L], [C] and [V] in the source. *)
Record CandlesResult := {
  res_T : list Z;        (* json:"t" *)
  res_O : list string;   (* json:"o" *)
  res_H : list string;   (* json:"h" *)
  res_L : list string;   (* json:"l" *)
  res_C : list string;   (* json:"c" *)
  res_V : list string;   (* json:"v" *)
}.

(** Structures that the client returns as decoded, reading no field. *)
Class Payloads := {
  Currency : Type;
  MarketOrder : Type;
  MarketTrade : Type;
  Profile : Type;
  Balance : Type;
  FeeLevel : Type;
  BankingCard : Type;
  BankAccount : Type;
  Order : Type;
  Trade : Type;
}.

Record MarketOrdersResult `{Payloads} := {
  Ask : list (ptr MarketOrder);
  Bid : list (ptr MarketOrder);
}.
Record MarketTradesResult `{Payloads} := {
  LatestTrades : list (ptr MarketTrade);
}.
Record BalancesResult `{Payloads} := {
  Balances : gmap string (ptr Balance);
}.
Record OpenOrdersResult `{Payloads} := {
  Orders : list (ptr Order);
}.
Record TradesResult `{Payloads} := {
  AccountLatestTrades : list (ptr Trade);
}.

Class Net `{Payloads} := {
  (** [net/url]: the error of [url.Parse], which [http.NewRequest] hands
      on, and [url.Values.Encode] of the pairs added so far. *)
  url_Parse_error : string → option GoError;
  url_Values_Encode : list (string * string) → string;
  (** [strconv.FormatInt(i, base)]. *)
  strconv_FormatInt : Z → Z → string;
  (** The bytes [json.Marshal] writes for a JSON value. *)
  json_encode : JSON → list byte;
  (** The order in which [range] visits a map; it is not specified. *)
  map_range : gmap string (ptr Market) → list (string * ptr Market);
  (** [json.NewDecoder(body).Decode(&result)] at each type of [result]:
      the error, or [result] as filled in. *)
  Decode_Markets : list byte → GoError + Envelope MarketsResult;
  Decode_Currencies : list byte → GoError + Envelope (list (ptr Currency));
  Decode_MarketOrders : list byte → GoError + Envelope MarketOrdersResult;
  Decode_MarketTrades : list byte → GoError + Envelope MarketTradesResult;
  Decode_Candles : list byte → GoError + CandlesResult;
  Decode_Profile : list byte → GoError + Envelope (ptr Profile);
  Decode_Balances : list byte → GoError + Envelope BalancesResult;
  Decode_FeeLevels : list byte → GoError + Envelope (gmap string (ptr FeeLevel));
  Decode_BankingCards : list byte → GoError + Envelope (list (ptr BankingCard));
  Decode_BankAccounts : list byte → GoError + Envelope (list (ptr BankAccount));
  Decode_Order : list byte → GoError + Envelope (ptr Order);
  Decode_OpenOrders : list byte → GoError + Envelope OpenOrdersResult;
  Decode_Trades : list byte → GoError + Envelope TradesResult;
}.

(** [range] visits every entry of the map once. *)
Class NetSpec `{Net} : Prop := {
  map_range_Permutation : ∀ m, map_range m ≡ₚ map_to_list m;
}.

(** ** Errors of the package *)

(** [type Error struct] *)
Record Error := {
  Message : string;
  Cause : option GoError;
}.

(** A non-nil [error] returned by the package is a [*Error]: one of the six
    package-level variables, or a structure allocated by the call. *)
Inductive error :=
  | ErrMissingAPIKey
  | ErrBadRequest
  | ErrUnauthorized
  | ErrForbidden
  | ErrNotFound
  | ErrUnknown
  | new_Error (e : Error).

(** What each pointer points to ([var ( ErrMissingAPIKey = &Error{...} ...)]). *)
Definition Error_at (p : error) : Error :=
  match p with
  | ErrMissingAPIKey => {| Message := "missing api key"; Cause := None |}
  | ErrBadRequest => {| Message := "bad request"; Cause := None |}
  | ErrUnauthorized => {| Message := "unauthorized"; Cause := None |}
  | ErrForbidden => {| Message := "access forbidden"; Cause := None |}
  | ErrNotFound => {| Message := "resource not found"; Cause := None |}
  | ErrUnknown => {| Message := "unknown error"; Cause := None |}
  | new_Error e => e
  end.

(** [func wrapRequestError(err error) error] *)
Definition wrapRequestError (err : GoError) : error :=
  new_Error {| Message := "request failed"; Cause := Some err |}.

Definition http_StatusOK : Z := 200.
Definition http_StatusBadRequest : Z := 400.
Definition http_StatusUnauthorized : Z := 401.
Definition http_StatusForbidden : Z := 403.
Definition http_StatusNotFound : Z := 404.

(** [func errNonOKResponse(code int) error] *)
Definition errNonOKResponse (code : Z) : error :=
  if decide (code = http_StatusBadRequest) then ErrBadRequest
  else if decide (code = http_StatusUnauthorized) then ErrUnauthorized
  else if decide (code = http_StatusForbidden) then ErrForbidden
  else if decide (code = http_StatusNotFound) then ErrNotFound
  else ErrUnknown.

(** ** The client *)

Definition baseURL : string := "https://api.wallex.ir".
Definition apiKeyHeader : string := "x-api-key".

(** [type Client struct].  [httpClient] is never nil in a client that
    [New] built. *)
Record Client := {
  httpClient : http_Client;
  apiKey : string;
}.

(** [type ClientOptions struct] *)
Record ClientOptions := {
  APIKey : string;
  HTTPClient : option http_Client;
}.

(** [func New(opt ClientOptions) *Client].  [c] starts as [&Client{}];
    [apiKey] is assigned in the one branch that reads the environment. *)
Definition New (opt : ClientOptions) : IO Client := λ w,
  ({| apiKey :=
        if decide (APIKey opt = "") then os_Getenv w "WALLEX_API_KEY" else "";
      httpClient :=
        match HTTPClient opt with
        | Some h => h
        | None => http_DefaultClient
        end |}, []).

(** List of available candle resolutions. *)
Definition Minute : string := "1".
Definition Hour : string := "60".
Definition ThreeHour : string := "180".
Definition SixHour : string := "360".
Definition TwelveHour : string := "720".
Definition Day : string := "1D".

(** What [json.Marshal] writes for an [OrderParams], from the tags of the
    structure: five keys always, [client_id] unless it is empty. *)
Definition OrderParams_JSON (p : OrderParams) : JSON :=
  JObject
    ([("symbol", JString (OrderParams_Symbol p));
      ("type", JString (OrderParams_Type p));
      ("side", JString (OrderParams_Side p));
      ("price", JString (OrderParams_Price p));
      ("quantity", JString (OrderParams_Quantity p))]
     ++ (if decide (OrderParams_ClientID p = "") then []
         else [("client_id", JString (OrderParams_ClientID p))])).

(** The loop of [Candles]: [candles = append(candles, &Candle{...})] for
    each [i, t] of [result.T], indexing the five other slices at [i]. *)
Fixpoint Candles_loop (result : CandlesResult) (i : nat) (ts : list Z)
    (candles : list (ptr Candle)) : outcome (list (ptr Candle)) :=
  match ts with
  | [] => Returned candles
  | t :: ts =>
      match (res_O result !! i : option string) with
      | None => IndexOutOfRange i (length (res_O result))
      | Some o =>
      match (res_H result !! i : option string) with
      | None => IndexOutOfRange i (length (res_H result))
      | Some h =>
      match (res_L result !! i : option string) with
      | None => IndexOutOfRange i (length (res_L result))
      | Some l =>
      match (res_C result !! i : option string) with
      | None => IndexOutOfRange i (length (res_C result))
      | Some c =>
      match (res_V result !! i : option string) with
      | None => IndexOutOfRange i (length (res_V result))
      | Some v =>
          Candles_loop result (S i) ts
            (candles ++ [Some {| Candle_Timestamp := time_Unix t 0;
                                 Candle_Open := o;
                                 Candle_High := h;
                                 Candle_Low := l;
                                 Candle_Close := c;
                                 Candle_Volume := v |}])
      end end end end end
  end.

Section client.
Context {payloads : Payloads} {net : Net}.

(** [http.NewRequest(method, url, body)] *)
Definition http_NewRequest (method url : string) (body : option (list byte))
  : IO (GoError + Request) := λ _,
  (match url_Parse_error url with
   | Some err => inl err
   | None => inr {| req_Method := method; req_URL := url;
                    req_Header := []; req_Body := body |}
   end, [ev_NewRequest method url body]).

(** [req.Header.Add(key, value)] *)
Definition Header_Add (req : Request) (key value : string) : Request :=
  {| req_Method := req_Method req; req_URL := req_URL req;
     req_Header := req_Header req ++ [(key, value)];
     req_Body := req_Body req |}.

(** The methods [Do] and [Get] of an [http.Client], and the
    package-level [http.Get], which is [DefaultClient.Get]. *)
Definition http_Client_Do (h : http_Client) (req : Request)
  : IO (GoError + Response) := λ w,
  let answer := RoundTrip w h req in (answer, [ev_Do h req answer]).

Definition http_Client_Get (h : http_Client) (url : string)
  : IO (GoError + Response) :=
  r ← http_NewRequest "GET" url None;
  match r with
  | inl err => mret (inl err)
  | inr req => http_Client_Do h req
  end.

Definition http_Get (url : string) : IO (GoError + Response) :=
  http_Client_Get http_DefaultClient url.

(** *** Markets *)

Definition Client_Markets (c : Client)
  : IO (list (ptr Market) * option error) :=
  r ← http_Client_Get (httpClient c) (baseURL +:+ "/v1/markets");
  match r with
  | inl err => mret ([], Some (wrapRequestError err))
  | inr resp =>
    if decide (StatusCode resp ≠ http_StatusOK)
    then mret ([], Some (errNonOKResponse (StatusCode resp)))
    else
      match Decode_Markets (Body resp) with
      | inl err => mret ([], Some (wrapRequestError err))
      | inr result =>
          let markets :=
            foldl (λ markets km, markets ++ [km.2]) []
                  (map_range (Symbols (Result result))) in
          mret (markets, None)
      end
  end.

Definition Client_Currencies (c : Client)
  : IO (list (ptr Currency) * option error) :=
  r ← http_Client_Get (httpClient c) (baseURL +:+ "/v1/currencies/stats");
  match r with
  | inl err => mret ([], Some (wrapRequestError err))
  | inr resp =>
    if decide (StatusCode resp ≠ http_StatusOK)
    then mret ([], Some (errNonOKResponse (StatusCode resp)))
    else
      match Decode_Currencies (Body resp) with
      | inl err => mret ([], Some (wrapRequestError err))
      | inr result => mret (Result result, None)
      end
  end.

Definition Client_MarketOrders (c : Client) (symbol : string)
  : IO (list (ptr MarketOrder) * list (ptr MarketOrder) * option error) :=
  let query := [("symbol", symbol)] in
  r ← http_Client_Get (httpClient c)
        (baseURL +:+ "/v1/depth?" +:+ url_Values_Encode query);
  match r with
  | inl err => mret ([], [], Some (wrapRequestError err))
  | inr resp =>
    if decide (StatusCode resp ≠ http_StatusOK)
    then mret ([], [], Some (errNonOKResponse (StatusCode resp)))
    else
      match Decode_MarketOrders (Body resp) with
      | inl err => mret ([], [], Some (wrapRequestError err))
      | inr result => mret (Ask (Result result), Bid (Result result), None)
      end
  end.

Definition Client_MarketTrades (c : Client) (symbol : string)
  : IO (list (ptr MarketTrade) * option error) :=
  let query := [("symbol", symbol)] in
  r ← http_Client_Get (httpClient c)
        (baseURL +:+ "/v1/trades?" +:+ url_Values_Encode query);
  match r with
  | inl err => mret ([], Some (wrapRequestError err))
  | inr resp =>
    if decide (StatusCode resp ≠ http_StatusOK)
    then mret ([], Some (errNonOKResponse (StatusCode resp)))
    else
      match Decode_MarketTrades (Body resp) with
      | inl err => mret ([], Some (wrapRequestError err))
      | inr result => mret (LatestTrades (Result result), None)
      end
  end.

(** [Candles] sends its request with [http.Get], not with
    [c.httpClient]. *)
Definition Client_Candles (c : Client) (symbol resolution : string)
    (from to : Time) : IO (outcome (list (ptr Candle) * option error)) :=
  let query :=
    [("symbol", symbol); ("resolution", resolution);
     ("from", strconv_FormatInt (Time_Unix from) 10);
     ("to", strconv_FormatInt (Time_Unix to) 10)] in
  r ← http_Get (baseURL +:+ "/v1/udf/history?" +:+ url_Values_Encode query);
  match r with
  | inl err => mret (Returned ([], Some (wrapRequestError err)))
  | inr resp =>
    if decide (StatusCode resp ≠ 200)
    then mret (Returned ([], Some (errNonOKResponse (StatusCode resp))))
    else
      match Decode_Candles (Body resp) with
      | inl err => mret (Returned ([], Some (wrapRequestError err)))
      | inr result =>
          match Candles_loop result 0 (res_T result) [] with
          | Returned candles => mret (Returned (candles, None))
          | IndexOutOfRange i n => mret (IndexOutOfRange i n)
          end
      end
  end.

(** *** Account *)

Definition Client_Profile (c : Client) : IO (ptr Profile * option error) :=
  if decide (apiKey c = "") then mret (None, Some ErrMissingAPIKey) else
  r ← http_NewRequest "GET" (baseURL +:+ "/v1/account/profile") None;
  match r with
  | inl err => mret (None, Some (wrapRequestError err))
  | inr req =>
    let req := Header_Add req apiKeyHeader (apiKey c) in
    r ← http_Client_Do (httpClient c) req;
    match r with
    | inl err => mret (None, Some (wrapRequestError err))
    | inr resp =>
      if decide (StatusCode resp ≠ 200)
      then mret (None, Some (errNonOKResponse (StatusCode resp)))
      else
        match Decode_Profile (Body resp) with
        | inl err => mret (None, Some (wrapRequestError err))
        | inr result => mret (Result result, None)
        end
    end
  end.

Definition Client_Balances (c : Client)
  : IO (gmap string (ptr Balance) * option error) :=
  if decide (apiKey c = "") then mret (∅, Some ErrMissingAPIKey) else
  r ← http_NewRequest "GET" (baseURL +:+ "/v1/account/balances") None;
  match r with
  | inl err => mret (∅, Some (wrapRequestError err))
  | inr req =>
    let req := Header_Add req apiKeyHeader (apiKey c) in
    r ← http_Client_Do (httpClient c) req;
    match r with
    | inl err => mret (∅, Some (wrapRequestError err))
    | inr resp =>
      if decide (StatusCode resp ≠ 200)
      then mret (∅, Some (errNonOKResponse (StatusCode resp)))
      else
        match Decode_Balances (Body resp) with
        | inl err => mret (∅, Some (wrapRequestError err))
        | inr result => mret (Balances (Result result), None)
        end
    end
  end.

Definition Client_FeeLevels (c : Client)
  : IO (gmap string (ptr FeeLevel) * option error) :=
  if decide (apiKey c = "") then mret (∅, Some ErrMissingAPIKey) else
  r ← http_NewRequest "GET" (baseURL +:+ "/v1/account/fee") None;
  match r with
  | inl err => mret (∅, Some (wrapRequestError err))
  | inr req =>
    let req := Header_Add req apiKeyHeader (apiKey c) in
    r ← http_Client_Do (httpClient c) req;
    match r with
    | inl err => mret (∅, Some (wrapRequestError err))
    | inr resp =>
      if decide (StatusCode resp ≠ 200)
      then mret (∅, Some (errNonOKResponse (StatusCode resp)))
      else
        match Decode_FeeLevels (Body resp) with
        | inl err => mret (∅, Some (wrapRequestError err))
        | inr result => mret (Result result, None)
        end
    end
  end.

Definition Client_BankingCards (c : Client)
  : IO (list (ptr BankingCard) * option error) :=
  if decide (apiKey c = "") then mret ([], Some ErrMissingAPIKey) else
  r ← http_NewRequest "GET" (baseURL +:+ "/v1/account/card-numbers") None;
  match r with
  | inl err => mret ([], Some (wrapRequestError err))
  | inr req =>
    let req := Header_Add req apiKeyHeader (apiKey c) in
    r ← http_Client_Do (httpClient c) req;
    match r with
    | inl err => mret ([], Some (wrapRequestError err))
    | inr resp =>
      if decide (StatusCode resp ≠ 200)
      then mret ([], Some (errNonOKResponse (StatusCode resp)))
      else
        match Decode_BankingCards (Body resp) with
        | inl err => mret ([], Some (wrapRequestError err))
        | inr result => mret (Result result, None)
        end
    end
  end.

Definition Client_BankAccounts (c : Client)
  : IO (list (ptr BankAccount) * option error) :=
  if decide (apiKey c = "") then mret ([], Some ErrMissingAPIKey) else
  r ← http_NewRequest "GET" (baseURL +:+ "/v1/account/ibans") None;
  match r with
  | inl err => mret ([], Some (wrapRequestError err))
  | inr req =>
    let req := Header_Add req apiKeyHeader (apiKey c) in
    r ← http_Client_Do (httpClient c) req;
    match r with
    | inl err => mret ([], Some (wrapRequestError err))
    | inr resp =>
      if decide (StatusCode resp ≠ 200)
      then mret ([], Some (errNonOKResponse (StatusCode resp)))
      else
        match Decode_BankAccounts (Body resp) with
        | inl err => mret ([], Some (wrapRequestError err))
        | inr result => mret (Result result, None)
        end
    end
  end.

(** *** Orders and trades *)

(** [json.Marshal(p)] for [p *OrderParams]; a nil pointer is written as
    [null].  The error of [Marshal] is dropped by the caller. *)
Definition json_Marshal_OrderParams (p : ptr OrderParams) : list byte :=
  json_encode (match p with
               | None => JNull
               | Some p => OrderParams_JSON p
               end).

Definition Client_PlaceOrder (c : Client) (p : ptr OrderParams)
  : IO (ptr Order * option error) :=
  if decide (apiKey c = "") then mret (None, Some ErrMissingAPIKey) else
  let body := json_Marshal_OrderParams p in
  r ← http_NewRequest "POST" (baseURL +:+ "/v1/account/orders") (Some body);
  match r with
  | inl err => mret (None, Some (wrapRequestError err))
  | inr req =>
    let req := Header_Add req apiKeyHeader (apiKey c) in
    r ← http_Client_Do (httpClient c) req;
    match r with
    | inl err => mret (None, Some (wrapRequestError err))
    | inr resp =>
      if decide (StatusCode resp ≠ 200)
      then mret (None, Some (errNonOKResponse (StatusCode resp)))
      else
        match Decode_Order (Body resp) with
        | inl err => mret (None, Some (wrapRequestError err))
        | inr result => mret (Result result, None)
        end
    end
  end.

Definition Client_CancelOrder (c : Client) (clientOrderID : string)
  : IO (option error) :=
  if decide (apiKey c = "") then mret (Some ErrMissingAPIKey) else
  let query := [("clientOrderId", clientOrderID)] in
  r ← http_NewRequest "DELETE"
        (baseURL +:+ "/v1/account/orders?" +:+ url_Values_Encode query) None;
  match r with
  | inl err => mret (Some (wrapRequestError err))
  | inr req =>
    let req := Header_Add req apiKeyHeader (apiKey c) in
    r ← http_Client_Do (httpClient c) req;
    match r with
    | inl err => mret (Some (wrapRequestError err))
    | inr resp =>
      if decide (StatusCode resp ≠ 200)
      then mret (Some (errNonOKResponse (StatusCode resp)))
      else mret None
    end
  end.

Definition Client_Order (c : Client) (clientOrderID : string)
  : IO (ptr Order * option error) :=
  if decide (apiKey c = "") then mret (None, Some ErrMissingAPIKey) else
  r ← http_NewRequest "GET"
        (baseURL +:+ "/v1/account/orders/" +:+ clientOrderID) None;
  match r with
  | inl err => mret (None, Some (wrapRequestError err))
  | inr req =>
    let req := Header_Add req apiKeyHeader (apiKey c) in
    r ← http_Client_Do (httpClient c) req;
    match r with
    | inl err => mret (None, Some (wrapRequestError err))
    | inr resp =>
      if decide (StatusCode resp ≠ 200)
      then mret (None, Some (errNonOKResponse (StatusCode resp)))
      else
        match Decode_Order (Body resp) with
        | inl err => mret (None, Some (wrapRequestError err))
        | inr result => mret (Result result, None)
        end
    end
  end.

Definition Client_OpenOrders (c : Client) (symbol : string)
  : IO (list (ptr Order) * option error) :=
  if decide (apiKey c = "") then mret ([], Some ErrMissingAPIKey) else
  let query := [] in
  let query := if decide (symbol ≠ "") then query ++ [("symbol", symbol)]
               else query in
  r ← http_NewRequest "GET"
        (baseURL +:+ "/v1/account/openOrders?" +:+ url_Values_Encode query)
        None;
  match r with
  | inl err => mret ([], Some (wrapRequestError err))
  | inr req =>
    let req := Header_Add req apiKeyHeader (apiKey c) in
    r ← http_Client_Do (httpClient c) req;
    match r with
    | inl err => mret ([], Some (wrapRequestError err))
    | inr resp =>
      if decide (StatusCode resp ≠ 200)
      then mret ([], Some (errNonOKResponse (StatusCode resp)))
      else
        match Decode_OpenOrders (Body resp) with
        | inl err => mret ([], Some (wrapRequestError err))
        | inr result => mret (Orders (Result result), None)
        end
    end
  end.

Definition Client_Trades (c : Client) (symbol side : string)
  : IO (list (ptr Trade) * option error) :=
  if decide (apiKey c = "") then mret ([], Some ErrMissingAPIKey) else
  let query := [] in
  let query := if decide (symbol ≠ "") then query ++ [("symbol", symbol)]
               else query in
  let query := if decide (side ≠ "") then query ++ [("side", side)]
               else query in
  r ← http_NewRequest "GET"
        (baseURL +:+ "/v1/account/trades?" +:+ url_Values_Encode query) None;
  match r with
  | inl err => mret ([], Some (wrapRequestError err))
  | inr req =>
    let req := Header_Add req apiKeyHeader (apiKey c) in
    r ← http_Client_Do (httpClient c) req;
    match r with
    | inl err => mret ([], Some (wrapRequestError err))
    | inr resp =>
      if decide (StatusCode resp ≠ 200)
      then mret ([], Some (errNonOKResponse (StatusCode resp)))
      else
        match Decode_Trades (Body resp) with
        | inl err => mret ([], Some (wrapRequestError err))
        | inr result => mret (AccountLatestTrades (Result result), None)
        end
    end
  end.
End client.

(** ** Reading a run *)

(** The keys of a JSON object, in the order written. *)
Definition json_keys (j : JSON) : list string :=
  match j with
  | JObject kvs => kvs.*1
  | _ => []
  end.

(** The value of the first member of a JSON object with key [k]. *)
Definition json_member (j : JSON) (k : string) : option JSON :=
  match j with
  | JObject kvs => snd <$> List.find (λ kv, bool_decide (kv.1 = k)) kvs
  | _ => None
  end.

(** [answered t h req resp]: during a run with events [t], transport [h]
    was sent [req] and answered with the response [resp]. *)
Definition answered (t : list event) (h : http_Client) (req : Request)
    (resp : Response) : Prop :=
  ev_Do h req (inr resp) ∈ t.

(** A call maps a response that is not 200 to its category error, next to
    the zero value [zero] of its result. *)
Definition status_mapped {A : Type} (zero : A)
    (run : (A * option error) * list event) : Prop :=
  ∀ h req resp, answered run.2 h req resp → StatusCode resp ≠ 200 →
    run.1 = (zero, Some (errNonOKResponse (StatusCode resp))).

(** The least length among the five value arrays of a candles body. *)
Definition value_arrays_length (result : CandlesResult) : nat :=
  Nat.min (length (res_O result))
    (Nat.min (length (res_H result))
       (Nat.min (length (res_L result))
          (Nat.min (length (res_C result)) (length (res_V result))))).

(** The candle [Candles] builds at index [i]. *)
Definition candle_at (result : CandlesResult) (i : nat) : option Candle :=
  t ← res_T result !! i;
  o ← res_O result !! i;
  h ← res_H result !! i;
  l ← res_L result !! i;
  c ← res_C result !! i;
  v ← res_V result !! i;
  Some {| Candle_Timestamp := time_Unix t 0; Candle_Open := o;
          Candle_High := h; Candle_Low := l; Candle_Close := c;
          Candle_Volume := v |}.

(** ** A stub of the network, as a test of the package sets one up *)
Module Stub.

#[export] Instance payloads : Payloads := {|
  Currency := unit; MarketOrder := unit; MarketTrade := unit;
  Profile := unit; Balance := unit; FeeLevel := unit;
  BankingCard := unit; BankAccount := unit; Order := unit; Trade := unit;
|}.

Definition no_stats : Market_Stats := {|
  Stats_BidPrice := ""; Stats_AskPrice := ""; Stats_Change24H := "";
  Stats_Change7D := ""; Stats_Volume24H := ""; Stats_Volume7D := "";
  Stats_QuoteVolume24H := ""; Stats_HighPrice24H := "";
  Stats_LowPrice24H := ""; Stats_LastPrice := ""; Stats_LastQty := "";
  Stats_LastTradeSide := ""; Stats_BidVolume := ""; Stats_AskVolume := "";
  Stats_BidCount := ""; Stats_AskCount := "";
  Stats_Direction := {| Direction_Sell := 0; Direction_Buy := 0 |};
|}.

(** A market with the given symbol and every other field zero. *)
Definition market (symbol : string) : Market := {|
  Market_Symbol := symbol; Market_BaseAsset := "";
  Market_BaseAssetPrecision := 0; Market_QuoteAsset := "";
  Market_QuotePrecision := 0; Market_FarsiName := "";
  Market_FarsiBaseAsset := ""; Market_FarsiQuoteAsset := "";
  Market_StepSize := 0; Market_TickSize := 0; Market_MinQty := "";
  Market_MinNotional := ""; Market_Stats_ := no_stats;
  Market_CreatedAt := time_Unix 0 0;
|}.

Definition symbols : gmap string (ptr Market) :=
  {[ "BTCUSDT" := Some (market "BTCUSDT") ]}.

Definition balances : gmap string (ptr Balance) := {[ "BTC" := Some () ]}.

(** Two candles, and the same with the array of lows one short. *)
Definition candles : CandlesResult := {|
  res_T := [1600000000; 1600000060];
  res_O := ["1"; "2"]; res_H := ["3"; "4"]; res_L := ["0.5"; "1.5"];
  res_C := ["2"; "3"]; res_V := ["10"; "20"];
|}.
Definition short_candles : CandlesResult := {|
  res_T := [1600000000; 1600000060];
  res_O := ["1"; "2"]; res_H := ["3"; "4"]; res_L := ["0.5"];
  res_C := ["2"; "3"]; res_V := ["10"; "20"];
|}.

(** Strings are written between quotes as they are, which is what
    [json.Marshal] does for the keys and values used below. *)
Definition quoted (s : string) : string :=
  String (ascii_of_nat 34) (s +:+ String (ascii_of_nat 34) "").

Fixpoint json_print (j : JSON) : string :=
  match j with
  | JNull => "null"
  | JBool true => "true"
  | JBool false => "false"
  | JNumber lit => lit
  | JString s => quoted s
  | JArray xs =>
      "[" +:+ String.concat "," (List.map json_print xs) +:+ "]"
  | JObject kvs =>
      "{" +:+ String.concat ","
               (List.map (λ kv, quoted kv.1 +:+ ":" +:+ json_print kv.2) kvs)
          +:+ "}"
  end.

Definition bytes (s : string) : list byte := list_byte_of_string s.

(** Canned decoders: the body [short] decodes to the short candles,
    every other body to the fixed results above. *)
#[export] Instance net : Net := {|
  url_Parse_error := λ _, None;
  url_Values_Encode := λ q,
    String.concat "&" (List.map (λ kv, kv.1 +:+ "=" +:+ kv.2) q);
  strconv_FormatInt := λ i _, pretty i;
  json_encode := λ j, bytes (json_print j);
  map_range := map_to_list;
  Decode_Markets := λ _, inr {| Result := {| Symbols := symbols |} |};
  Decode_Currencies := λ _, inr {| Result := [] |};
  Decode_MarketOrders := λ _, inr {| Result := {| Ask := []; Bid := [] |} |};
  Decode_MarketTrades := λ _, inr {| Result := {| LatestTrades := [] |} |};
  Decode_Candles := λ body,
    inr (if decide (body = bytes "short") then short_candles else candles);
  Decode_Profile := λ _, inr {| Result := Some () |};
  Decode_Balances := λ _, inr {| Result := {| Balances := balances |} |};
  Decode_FeeLevels := λ _, inr {| Result := ∅ |};
  Decode_BankingCards := λ _, inr {| Result := [] |};
  Decode_BankAccounts := λ _, inr {| Result := [] |};
  Decode_Order := λ _, inr {| Result := Some () |};
  Decode_OpenOrders := λ _, inr {| Result := {| Orders := [] |} |};
  Decode_Trades := λ _, inr {| Result := {| AccountLatestTrades := [] |} |};
|}.

(** Every transport answers every request with [code] and [body]; the
    environment has no variable set. *)
Definition world (code : Z) (body : string) : World := {|
  os_Getenv := λ _, "";
  RoundTrip := λ _ _, inr {| StatusCode := code; Body := bytes body |};
|}.

(** The same, with [WALLEX_API_KEY] set. *)
Definition world_with_key (key : string) (code : Z) (body : string)
  : World := {|
  os_Getenv := λ name,
    if decide (name = "WALLEX_API_KEY") then key else "";
  RoundTrip := λ _ _, inr {| StatusCode := code; Body := bytes body |};
|}.

Definition client (key : string) : Client :=
  {| httpClient := http_client_at 1; apiKey := key |}.

Definition order : OrderParams := {|
  OrderParams_Symbol := "BTCUSDT"; OrderParams_Type := "LIMIT";
  OrderParams_Side := "BUY"; OrderParams_Price := "100.5";
  OrderParams_Quantity := "2"; OrderParams_ClientID := "";
|}.

Definition empty_order : OrderParams := {|
  OrderParams_Symbol := ""; OrderParams_Type := "";
  OrderParams_Side := ""; OrderParams_Price := "";
  OrderParams_Quantity := ""; OrderParams_ClientID := "";
|}.
End Stub.

(** ** A reference model of the numeric part of the library

    [float64] is the IEEE 754 binary64 bit pattern.  [ParseFloat] follows
    [strconv]: the special values, then the syntax of [readFloat] (decimal
    and hexadecimal mantissa, underscores, exponent), then the nearest
    float with ties to even, and [ErrRange] with an infinity from half an
    ulp above the largest float on.  [Sprintf_f] follows the verb [%f]:
    the exact decimal expansion rounded to six places, ties to even.
    [json_scan] follows the scanner of [encoding/json]. *)
Module Ref.

(** *** Characters *)

Definition code (c : ascii) : Z := Z.of_N (N_of_ascii c).
Definition chr (n : Z) : ascii := ascii_of_N (Z.to_N n).
Definition is_char (n : Z) (c : ascii) : bool := code c =? n.
Definition between (lo hi : Z) (c : ascii) : bool :=
  (lo <=? code c) && (code c <=? hi).

Definition is_digit : ascii → bool := between 48 57.
Definition digit_value (c : ascii) : Z := code c - 48.
(** [lower(c)] of [strconv], which is [c | 0x20]. *)
Definition lower (c : ascii) : Z := Z.lor (code c) 32.
Definition is_hex_letter (c : ascii) : bool :=
  (97 <=? lower c) && (lower c <=? 102).
Definition hex_letter_value (c : ascii) : Z := lower c - 97 + 10.
(** Letters [A] to [Z] to lower case, as [commonPrefixLenIgnoreCase]
    does. *)
Definition fold_case (c : ascii) : ascii :=
  if between 65 90 c then chr (code c + 32) else c.

Definition chars (s : string) : list ascii := list_ascii_of_string s.
Definition text (cs : list ascii) : string := string_of_list_ascii cs.

(** *** binary64 *)

Definition float64_bits (neg : bool) (E M : Z) : Z :=
  (if neg then 2 ^ 63 else 0) + E * 2 ^ 52 + M.
Definition inf (neg : bool) : Z := float64_bits neg 2047 0.
(** [math.NaN()] *)
Definition nan : Z := 0x7FF8000000000001.

Definition bits_neg (b : Z) : bool := Z.testbit b 63.
Definition bits_exp (b : Z) : Z := (b / 2 ^ 52) mod 2 ^ 11.
Definition bits_frac (b : Z) : Z := b mod 2 ^ 52.

(** The quotient [a / b] rounded to an integer, ties to even. *)
Definition round_half_even (a b : Z) : Z :=
  let q := a / b in
  let r := a mod b in
  if 2 * r <? b then q
  else if b <? 2 * r then q + 1
  else if Z.even q then q else q + 1.

(** The float nearest to [p / q], for [0 < p], [0 < q] and a quotient
    below the overflow threshold. *)
Definition round_bits (neg : bool) (p q : Z) : Z :=
  let scaled e := if 0 <=? e then (p, q * 2 ^ e) else (p * 2 ^ (- e), q) in
  let e0 := Z.log2 p - Z.log2 q - 52 in
  let e1 := if (let '(a, b) := scaled e0 in a / b) <? 2 ^ 52
            then e0 - 1 else e0 in
  let e := Z.max e1 (-1074) in
  let m := let '(a, b) := scaled e in round_half_even a b in
  let '(m, e) := if m =? 2 ^ 53 then (2 ^ 52, e + 1) else (m, e) in
  if m <? 2 ^ 52 then float64_bits neg 0 m
  else float64_bits neg (e + 1075) (m - 2 ^ 52).

(** From this quotient on, half an ulp above the largest float, the
    result is an infinity and [ErrRange]. *)
Definition overflow_threshold : Z := 2 ^ 1024 - 2 ^ 970.

Definition to_float64 (neg : bool) (p q : Z) : Z * option GoError :=
  if p =? 0 then (float64_bits neg 0 0, None)
  else if overflow_threshold * q <=? p then (inf neg, Some strconv_ErrRange)
  else (round_bits neg p q, None).

(** *** strconv.ParseFloat *)

(** [special]: [inf] and [infinity] with an optional sign, [nan] with
    none, in any case of letters. *)
Definition special (s : list ascii) : option Z :=
  let folded := text (fold_case <$> s) in
  if decide (folded = "inf" ∨ folded = "+inf" ∨
             folded = "infinity" ∨ folded = "+infinity")
  then Some (inf false)
  else if decide (folded = "-inf" ∨ folded = "-infinity")
  then Some (inf true)
  else if decide (folded = "nan") then Some nan
  else None.

(** What the digit loop of [readFloat] has seen. *)
Record mantissa := {
  mant : Z;              (* the digits read, as a number in the base *)
  frac_digits : Z;       (* how many of them came after the point *)
  sawdot : bool;
  sawdigits : bool;
  underscores : bool;
}.

Fixpoint read_mantissa (hex : bool) (s : list ascii) (st : mantissa)
  : mantissa * list ascii :=
  match s with
  | [] => (st, [])
  | c :: s' =>
      if is_char 95 c then                                     (* '_' *)
        read_mantissa hex s'
          {| mant := mant st; frac_digits := frac_digits st;
             sawdot := sawdot st; sawdigits := sawdigits st;
             underscores := true |}
      else if is_char 46 c then                                (* '.' *)
        if sawdot st then (st, s)
        else read_mantissa hex s'
               {| mant := mant st; frac_digits := frac_digits st;
                  sawdot := true; sawdigits := sawdigits st;
                  underscores := underscores st |}
      else if is_digit c then
        read_mantissa hex s'
          {| mant := mant st * (if hex then 16 else 10) + digit_value c;
             frac_digits :=
               frac_digits st + (if sawdot st then 1 else 0);
             sawdot := sawdot st; sawdigits := true;
             underscores := underscores st |}
      else if hex && is_hex_letter c then
        read_mantissa hex s'
          {| mant := mant st * 16 + hex_letter_value c;
             frac_digits :=
               frac_digits st + (if sawdot st then 1 else 0);
             sawdot := sawdot st; sawdigits := true;
             underscores := underscores st |}
      else (st, s)
  end.

(** The digits of the exponent; beyond 10000 further digits are
    dropped. *)
Fixpoint read_exponent (s : list ascii) (e : Z) (us : bool)
  : Z * bool * list ascii :=
  match s with
  | [] => (e, us, [])
  | c :: s' =>
      if is_char 95 c then read_exponent s' e true
      else if is_digit c then
        read_exponent s' (if e <? 10000 then e * 10 + digit_value c else e) us
      else (e, us, s)
  end.

(** [underscoreOK]: an underscore stands between digits, or after the
    base prefix. *)
Fixpoint underscore_loop (hex : bool) (s : list ascii) (saw : Z) : bool :=
  match s with
  | [] => negb (saw =? 95)
  | c :: s' =>
      if is_digit c || (hex && is_hex_letter c)
      then underscore_loop hex s' 48
      else if is_char 95 c
      then (saw =? 48) && underscore_loop hex s' 95
      else negb (saw =? 95) && underscore_loop hex s' 33
  end.

Definition strip_sign (s : list ascii) : bool * list ascii :=
  match s with
  | c :: s' => if is_char 43 c then (false, s')
               else if is_char 45 c then (true, s') else (false, s)
  | [] => (false, [])
  end.

Definition has_prefix (letters : list Z) (s : list ascii) : bool :=
  match s with
  | c0 :: c1 :: _ => is_char 48 c0 && bool_decide (lower c1 ∈ letters)
  | _ => false
  end.

Definition underscoreOK (s : list ascii) : bool :=
  let s := (strip_sign s).2 in
  if has_prefix [98; 111; 120] s                (* 0b, 0o, 0x *)
  then underscore_loop (has_prefix [120] s) (drop 2 s) 48
  else underscore_loop false s 94.

(** [readFloat], for an input that is read to its end: the sign, the
    mantissa with its base, and the exponent of 10 or of 2 that the
    mantissa is to be scaled by. *)
Definition readFloat (s : list ascii) : option (bool * bool * Z * Z) :=
  match s with
  | [] => None
  | _ =>
    let '(neg, r) := strip_sign s in
    let hex := has_prefix [120] r && (2 <? Z.of_nat (length r)) in
    let r := if hex then drop 2 r else r in
    let '(st, r) :=
      read_mantissa hex r
        {| mant := 0; frac_digits := 0; sawdot := false;
           sawdigits := false; underscores := false |} in
    if negb (sawdigits st) then None else
    let scale := if hex then 4 else 1 in
    let finish (e : Z) (us : bool) (r : list ascii) :=
      match r with
      | [] =>
          if us && negb (underscoreOK s) then None
          else Some (neg, hex, mant st, e - scale * frac_digits st)
      | _ => None
      end in
    match r with
    | c :: r' =>
        if lower c =? (if hex then 112 else 101) then   (* 'p' or 'e' *)
          match r' with
          | [] => None
          | _ =>
            let '(eneg, r') := strip_sign r' in
            match r' with
            | d :: _ =>
                if is_digit d then
                  let '(e, us, r') := read_exponent r' 0 (underscores st) in
                  finish (if eneg then - e else e) us r'
                else None
            | [] => None
            end
          end
        else None
    | [] => if hex then None else finish 0 (underscores st) []
    end
  end.

Definition ParseFloat (s : string) : Z * option GoError :=
  match special (chars s) with
  | Some v => (v, None)
  | None =>
      match readFloat (chars s) with
      | None => (0, Some strconv_ErrSyntax)
      | Some (neg, hex, m, e) =>
          let b := if hex then 2 else 10 in
          if 0 <=? e then to_float64 neg (m * b ^ e) 1
          else to_float64 neg m (b ^ (- e))
      end
  end.

(** *** fmt.Sprintf with the verb %f *)

(** The decimal digits of [n], most significant first; [fuel] bounds
    their number. *)
Fixpoint digits_from (fuel : nat) (n : Z) (tail : list ascii)
  : list ascii :=
  match fuel with
  | O => tail
  | S fuel =>
      let tail := chr (48 + n mod 10) :: tail in
      if n <? 10 then tail else digits_from fuel (n / 10) tail
  end.

Definition digits (n : Z) : list ascii :=
  digits_from (S (Z.to_nat (Z.log2 n))) n [].

Definition pad (width : nat) (ds : list ascii) : list ascii :=
  replicate (width - length ds) (chr 48) ++ ds.

Definition Sprintf_f (b : Z) : string :=
  if bits_exp b =? 2047 then
    if bits_frac b =? 0 then (if bits_neg b then "-Inf" else "+Inf")
    else "NaN"
  else
    let '(m, e) := if bits_exp b =? 0 then (bits_frac b, -1074)
                   else (2 ^ 52 + bits_frac b, bits_exp b - 1075) in
    let scaled := if 0 <=? e then m * 2 ^ e * 10 ^ 6
                  else round_half_even (m * 10 ^ 6) (2 ^ (- e)) in
    text ((if bits_neg b then [chr 45] else [])
          ++ digits (scaled / 10 ^ 6)
          ++ [chr 46] ++ pad 6 (digits (scaled mod 10 ^ 6))).

(** *** The scanner of encoding/json *)

Definition is_space (c : ascii) : bool :=
  is_char 32 c || is_char 9 c || is_char 13 c || is_char 10 c.

Fixpoint skip_space (s : list ascii) : list ascii :=
  match s with
  | c :: s' => if is_space c then skip_space s' else s
  | [] => []
  end.

Fixpoint span_digits (s : list ascii) : list ascii * list ascii :=
  match s with
  | c :: s' =>
      if is_digit c then let '(ds, r) := span_digits s' in (c :: ds, r)
      else ([], s)
  | [] => ([], [])
  end.

(** A number literal: [-]? ( 0 | [1-9][0-9]* ) ( . [0-9]+ )?
    ( [eE] [+-]? [0-9]+ )? *)
Definition scan_number (s : list ascii) : option (list ascii * list ascii) :=
  let '(sign, r) := match s with
                    | c :: r => if is_char 45 c then ([c], r) else ([], s)
                    | [] => ([], s)
                    end in
  int ← match r with
        | c :: r1 =>
            if is_char 48 c then Some ([c], r1)
            else if between 49 57 c then Some (span_digits r)
            else None
        | [] => None
        end;
  frac ← match int.2 with
         | c :: r1 =>
             if is_char 46 c then
               let '(ds, r2) := span_digits r1 in
               match ds with [] => None | _ => Some (c :: ds, r2) end
             else Some ([], int.2)
         | [] => Some ([], [])
         end;
  ex ← match frac.2 with
       | c :: r1 =>
           if is_char 101 c || is_char 69 c then
             let '(sg, r2) :=
               match r1 with
               | d :: t => if is_char 43 d || is_char 45 d then ([d], t)
                           else ([], r1)
               | [] => ([], r1)
               end in
             let '(ds, r3) := span_digits r2 in
             match ds with [] => None | _ => Some (c :: sg ++ ds, r3) end
           else Some ([], frac.2)
       | [] => Some ([], [])
       end;
  Some (sign ++ int.1 ++ frac.1 ++ ex.1, ex.2).

Definition hex_value (c : ascii) : option Z :=
  if is_digit c then Some (digit_value c)
  else if between 97 102 c then Some (code c - 87)
  else if between 65 70 c then Some (code c - 55)
  else None.

Definition hex4 (h1 h2 h3 h4 : ascii) : option Z :=
  v1 ← hex_value h1; v2 ← hex_value h2;
  v3 ← hex_value h3; v4 ← hex_value h4;
  Some (((v1 * 16 + v2) * 16 + v3) * 16 + v4).

Definition replacement : list ascii := [chr 0xEF; chr 0xBF; chr 0xBD].

(** [utf8.EncodeRune] *)
Definition encode_rune (r : Z) : list ascii :=
  if r <? 0 then replacement
  else if r <? 0x80 then [chr r]
  else if r <? 0x800 then [chr (0xC0 + r / 64); chr (0x80 + r mod 64)]
  else if (0xD800 <=? r) && (r <? 0xE000) then replacement
  else if r <? 0x10000 then
    [chr (0xE0 + r / 4096); chr (0x80 + r / 64 mod 64); chr (0x80 + r mod 64)]
  else if r <? 0x110000 then
    [chr (0xF0 + r / 262144); chr (0x80 + r / 4096 mod 64);
     chr (0x80 + r / 64 mod 64); chr (0x80 + r mod 64)]
  else replacement.

(** For the first byte of a UTF-8 sequence: how many bytes follow, and
    the range of the first of them. *)
Definition utf8_first (c : ascii) : option (nat * Z * Z) :=
  let b := code c in
  if (0xC2 <=? b) && (b <=? 0xDF) then Some (1%nat, 0x80, 0xBF)
  else if b =? 0xE0 then Some (2%nat, 0xA0, 0xBF)
  else if b =? 0xED then Some (2%nat, 0x80, 0x9F)
  else if (0xE1 <=? b) && (b <=? 0xEF) then Some (2%nat, 0x80, 0xBF)
  else if b =? 0xF0 then Some (3%nat, 0x90, 0xBF)
  else if (0xF1 <=? b) && (b <=? 0xF3) then Some (3%nat, 0x80, 0xBF)
  else if b =? 0xF4 then Some (3%nat, 0x80, 0x8F)
  else None.

Definition continuation : ascii → bool := between 0x80 0xBF.

Definition simple_escape (c : ascii) : option ascii :=
  if is_char 34 c || is_char 92 c || is_char 47 c then Some c
  else if is_char 98 c then Some (chr 8)
  else if is_char 102 c then Some (chr 12)
  else if is_char 110 c then Some (chr 10)
  else if is_char 114 c then Some (chr 13)
  else if is_char 116 c then Some (chr 9)
  else None.

(** The contents of a string literal from after its opening quote, as
    [unquote] decodes them: escapes are replaced, a lone surrogate and
    ill-formed UTF-8 become U+FFFD; a control character or a bad escape
    is a syntax error. *)
Fixpoint scan_string (s : list ascii) (out : list ascii)
  : option (list ascii * list ascii) :=
  match s with
  | [] => None
  | c :: s1 =>
    if is_char 34 c then Some (out, s1)
    else if is_char 92 c then
      match s1 with
      | [] => None
      | e :: s2 =>
        if is_char 117 e then
          match s2 with
          | h1 :: h2 :: h3 :: h4 :: r =>
            match hex4 h1 h2 h3 h4 with
            | None => None
            | Some rr =>
              if (0xD800 <=? rr) && (rr <? 0xE000) then
                match r with
                | b :: u :: g1 :: g2 :: g3 :: g4 :: r2 =>
                  match (if is_char 92 b && is_char 117 u
                         then hex4 g1 g2 g3 g4 else None) with
                  | Some rr1 =>
                      if (rr <? 0xDC00) && (0xDC00 <=? rr1) && (rr1 <? 0xE000)
                      then scan_string r2
                             (out ++ encode_rune
                                ((rr - 0xD800) * 1024 + (rr1 - 0xDC00) + 0x10000))
                      else scan_string r (out ++ replacement)
                  | None => scan_string r (out ++ replacement)
                  end
                | _ => scan_string r (out ++ replacement)
                end
              else scan_string r (out ++ encode_rune rr)
            end
          | _ => None
          end
        else
          match simple_escape e with
          | Some ch => scan_string s2 (out ++ [ch])
          | None => None
          end
      end
    else if code c <? 32 then None
    else if code c <? 128 then scan_string s1 (out ++ [c])
    else
      match utf8_first c, s1 with
      | Some (1%nat, lo, hi), c1 :: r =>
          if between lo hi c1 then scan_string r (out ++ [c; c1])
          else scan_string s1 (out ++ replacement)
      | Some (2%nat, lo, hi), c1 :: c2 :: r =>
          if between lo hi c1 && continuation c2
          then scan_string r (out ++ [c; c1; c2])
          else scan_string s1 (out ++ replacement)
      | Some (3%nat, lo, hi), c1 :: c2 :: c3 :: r =>
          if between lo hi c1 && continuation c2 && continuation c3
          then scan_string r (out ++ [c; c1; c2; c3])
          else scan_string s1 (out ++ replacement)
      | _, _ => scan_string s1 (out ++ replacement)
      end
  end.

Definition strip_prefix (word : string) (s : list ascii)
  : option (list ascii) :=
  let w := chars word in
  if decide (take (length w) s = w) then Some (drop (length w) s) else None.

(** Nesting deeper than this is an error of the scanner. *)
Definition maxNestingDepth : Z := 10000.

(** One value, then the rest of the input.  [fuel] bounds the number of
    values and separators read. *)
Fixpoint scan_value (fuel : nat) (depth : Z) (s : list ascii)
  : option (JSON * list ascii) :=
  match fuel with
  | O => None
  | S fuel =>
    match skip_space s with
    | [] => None
    | c :: r =>
      if is_char 34 c then
        '(str, r) ← scan_string r []; Some (JString (text str), r)
      else if is_char 45 c || is_digit c then
        '(lit, r) ← scan_number (c :: r); Some (JNumber (text lit), r)
      else if is_char 116 c then
        r ← strip_prefix "true" (c :: r); Some (JBool true, r)
      else if is_char 102 c then
        r ← strip_prefix "false" (c :: r); Some (JBool false, r)
      else if is_char 110 c then
        r ← strip_prefix "null" (c :: r); Some (JNull, r)
      else if is_char 91 c then
        if maxNestingDepth <=? depth then None else
        match skip_space r with
        | c1 :: r1 =>
            if is_char 93 c1 then Some (JArray [], r1)
            else scan_elements fuel (depth + 1) r []
        | [] => None
        end
      else if is_char 123 c then
        if maxNestingDepth <=? depth then None else
        match skip_space r with
        | c1 :: r1 =>
            if is_char 125 c1 then Some (JObject [], r1)
            else scan_members fuel (depth + 1) r []
        | [] => None
        end
      else None
    end
  end
with scan_elements (fuel : nat) (depth : Z) (s : list ascii)
    (xs : list JSON)
  : option (JSON * list ascii) :=
  match fuel with
  | O => None
  | S fuel =>
    '(x, r) ← scan_value fuel depth s;
    match skip_space r with
    | c :: r1 =>
        if is_char 44 c then scan_elements fuel depth r1 (xs ++ [x])
        else if is_char 93 c then Some (JArray (xs ++ [x]), r1)
        else None
    | [] => None
    end
  end
with scan_members (fuel : nat) (depth : Z) (s : list ascii)
    (kvs : list (string * JSON)) : option (JSON * list ascii) :=
  match fuel with
  | O => None
  | S fuel =>
    match skip_space s with
    | q :: r =>
      if is_char 34 q then
        '(key, r) ← scan_string r [];
        match skip_space r with
        | colon :: r =>
          if is_char 58 colon then
            '(x, r) ← scan_value fuel depth r;
            match skip_space r with
            | c :: r1 =>
                if is_char 44 c
                then scan_members fuel depth r1 (kvs ++ [(text key, x)])
                else if is_char 125 c
                then Some (JObject (kvs ++ [(text key, x)]), r1)
                else None
            | [] => None
            end
          else None
        | [] => None
        end
      else None
    | [] => None
    end
  end.

Definition json_scan (data : list byte) : option JSON :=
  let s := chars (string_of_list_byte data) in
  '(v, r) ← scan_value (2 * length s + 2) 0 s;
  match skip_space r with
  | [] => Some v
  | _ => None
  end.

(** The number that the digit loop of [readFloat] accumulates over the
    decimal digits [ds], starting from [acc]. *)
Definition value_of (acc : Z) (ds : list ascii) : Z :=
  foldl (λ a c, a * 10 + digit_value c) acc ds.

(** The payload with the bytes of [s]. *)
Definition payload (s : string) : list byte := list_byte_of_string s.
(** A JSON string literal around [s]. *)
Definition quoted (s : string) : string :=
  String (chr 34) (s +:+ String (chr 34) "").

#[export] Instance number_lib : NumberLib :=
  Build_NumberLib Z 0 ParseFloat Sprintf_f json_scan.
End Ref.

(** ** The text of an error *)

(** [func (e *Error) Error() string].  [cause_text] is what the verb [%v]
    prints for the cause, its own [Error()]. *)
Definition Error_Error (cause_text : GoError → string) (e : Error) : string :=
  match Cause e with
  | Some cause =>
      "wallex: " +:+ Message e +:+ ": " +:+ cause_text cause
  | None => "wallex: " +:+ Message e
  end.

(** The texts of the six package-level errors. *)
Definition category_texts : list string :=
  ["wallex: missing api key"; "wallex: bad request"; "wallex: unauthorized";
   "wallex: access forbidden"; "wallex: resource not found";
   "wallex: unknown error"].

(** What an error says about the status code of the response behind it. *)
Definition told_by (e : error) (code : Z) : Prop :=
  match e with
  | ErrBadRequest => code = 400
  | ErrUnauthorized => code = 401
  | ErrForbidden => code = 403
  | ErrNotFound => code = 404
  | ErrUnknown => code ∉ [200; 400; 401; 403; 404]
  | ErrMissingAPIKey | new_Error _ => False
  end.

(** ** The run of a method, seen from outside *)

(** What a caller gets from a response or a transport error, for a method
    whose result has the zero value [zero] and is decoded by [decode]. *)
Definition answer_result {A : Type} (zero : A)
    (decode : list byte → GoError + A) (answer : GoError + Response)
  : A * option error :=
  match answer with
  | inl err => (zero, Some (wrapRequestError err))
  | inr resp =>
      if decide (StatusCode resp ≠ 200)
      then (zero, Some (errNonOKResponse (StatusCode resp)))
      else match decode (Body resp) with
           | inl err => (zero, Some (wrapRequestError err))
           | inr a => (a, None)
           end
  end.

(** The request a method sends: [key] is the credential of an authenticated
    method, [None] for a public one. *)
Definition request_of (key : option string) (verb url : string)
    (body : option (list byte)) : Request :=
  {| req_Method := verb; req_URL := url;
     req_Header := match key with
                   | Some k => [(apiKeyHeader, k)]
                   | None => []
                   end;
     req_Body := body |}.

Section call.
Context {payloads : Payloads} {net : Net}.

(** One request built, sent once on [h], and its answer turned into the
    result: the run that each method is shown to have. *)
Definition call {A : Type} (key : option string) (h : http_Client)
    (verb url : string) (body : option (list byte)) (zero : A)
    (decode : list byte → GoError + A) : IO (A * option error) := λ w,
  match url_Parse_error url with
  | Some err =>
      ((zero, Some (wrapRequestError err)), [ev_NewRequest verb url body])
  | None =>
      let req := request_of key verb url body in
      let answer := RoundTrip w h req in
      (answer_result zero decode answer,
       [ev_NewRequest verb url body; ev_Do h req answer])
  end.

(** The guard of an authenticated method in front of its run. *)
Definition authenticated {A : Type} (c : Client) (zero : A)
    (run : IO (A * option error)) : IO (A * option error) :=
  if decide (apiKey c = "") then mret (zero, Some ErrMissingAPIKey) else run.

(** A decoder followed by the projection a method returns. *)
Definition decoded {R A : Type} (decode : list byte → GoError + R)
    (shape : R → A) : list byte → GoError + A :=
  λ body, sum_map id shape (decode body).

(** The filters of a query that were given, that is, are not empty. *)
Definition given (pairs : list (string * string)) : list (string * string) :=
  filter (λ kv, kv.2 ≠ "") pairs.

(** The URL of [Candles]. *)
Definition Candles_URL (symbol resolution : string) (from to : Time)
  : string :=
  baseURL +:+ "/v1/udf/history?" +:+
  url_Values_Encode
    [("symbol", symbol); ("resolution", resolution);
     ("from", strconv_FormatInt (Time_Unix from) 10);
     ("to", strconv_FormatInt (Time_Unix to) 10)].

(** The error a run ended with, or the panic, and its events. *)
Definition summary {A : Type} (run : (A * option error) * list event)
  : outcome (option error) * list event :=
  (Returned run.1.2, run.2).

Definition summary_CancelOrder (run : option error * list event)
  : outcome (option error) * list event :=
  (Returned run.1, run.2).

Definition summary_Candles
    (run : outcome (list (ptr Candle) * option error) * list event)
  : outcome (option error) * list event :=
  (match run.1 with
   | Returned r => Returned r.2
   | IndexOutOfRange i n => IndexOutOfRange i n
   end, run.2).

(** The runs of the methods that take the transport of the client and no
    credential, of [Candles], and of the ten authenticated methods. *)
Definition open_runs (c : Client) (w : World) (symbol : string)
  : list (outcome (option error) * list event) :=
  [summary (Client_Markets c w); summary (Client_Currencies c w);
   summary (Client_MarketOrders c symbol w);
   summary (Client_MarketTrades c symbol w)].

Definition Candles_run (c : Client) (w : World) (symbol resolution : string)
    (from to : Time) : outcome (option error) * list event :=
  summary_Candles (Client_Candles c symbol resolution from to w).

Definition authenticated_runs (c : Client) (w : World) (p : ptr OrderParams)
    (clientOrderID symbol side : string)
  : list (outcome (option error) * list event) :=
  [summary (Client_Profile c w); summary (Client_Balances c w);
   summary (Client_FeeLevels c w); summary (Client_BankingCards c w);
   summary (Client_BankAccounts c w); summary (Client_PlaceOrder c p w);
   summary_CancelOrder (Client_CancelOrder c clientOrderID w);
   summary (Client_Order c clientOrderID w);
   summary (Client_OpenOrders c symbol w);
   summary (Client_Trades c symbol side w)].

Definition all_runs (c : Client) (w : World) (p : ptr OrderParams)
    (clientOrderID symbol resolution side : string) (from to : Time)
  : list (outcome (option error) * list event) :=
  open_runs c w symbol ++ [Candles_run c w symbol resolution from to]
  ++ authenticated_runs c w p clientOrderID symbol side.

(** The run has at most one request built and at most one exchange, the
    exchange is of the request as built, and its answer is the one the
    transport gives in [w]. *)
Definition one_exchange (w : World) (t : list event) : Prop :=
  t = [] ∨
  ∃ verb url body,
    t = [ev_NewRequest verb url body] ∨
    ∃ h req,
      t = [ev_NewRequest verb url body; ev_Do h req (RoundTrip w h req)] ∧
      req_Method req = verb ∧ req_URL req = url ∧ req_Body req = body.

(** For a response 200 whose body [decode] accepts, the method returns
    the result [shape] takes out of it, and no error. *)
Definition returns_result {R A : Type} (decode : list byte → GoError + R)
    (shape : R → A) (run : (A * option error) * list event) : Prop :=
  ∀ h req resp result, answered run.2 h req resp → StatusCode resp = 200 →
    decode (Body resp) = inr result → run.1 = (shape result, None).

(** For a response 200 whose body [decode] rejects, the method returns
    [zero] and the error of the decoder wrapped as its cause. *)
Definition wraps_decode_error {R A : Type} (decode : list byte → GoError + R)
    (zero : A) (run : (A * option error) * list event) : Prop :=
  ∀ h req resp err, answered run.2 h req resp → StatusCode resp = 200 →
    decode (Body resp) = inl err → run.1 = (zero, Some (wrapRequestError err)).

(** Every exchange of the run is a request with this verb and body. *)
Definition sends (verb : string) (body : option (list byte))
    (t : list event) : Prop :=
  ∀ h req answer, ev_Do h req answer ∈ t →
    req_Method req = verb ∧ req_Body req = body.
End call.

(** ** A stub that fails

    As [Stub], but the URL of the order [%zz] does not parse, the body
    [garbage] does not decode as an order, and the transports of
    [offline] refuse every connection. *)
Module Failing.

Definition bad_URL : string := baseURL +:+ "/v1/account/orders/%zz".

#[export] Instance net : @Net Stub.payloads := {|
  url_Parse_error := λ url,
    if decide (url = bad_URL) then Some (lib_error "invalid URL escape")
    else None;
  url_Values_Encode := @url_Values_Encode _ Stub.net;
  strconv_FormatInt := @strconv_FormatInt _ Stub.net;
  json_encode := @json_encode _ Stub.net;
  map_range := @map_range _ Stub.net;
  Decode_Markets := @Decode_Markets _ Stub.net;
  Decode_Currencies := @Decode_Currencies _ Stub.net;
  Decode_MarketOrders := @Decode_MarketOrders _ Stub.net;
  Decode_MarketTrades := @Decode_MarketTrades _ Stub.net;
  Decode_Candles := @Decode_Candles _ Stub.net;
  Decode_Profile := @Decode_Profile _ Stub.net;
  Decode_Balances := @Decode_Balances _ Stub.net;
  Decode_FeeLevels := @Decode_FeeLevels _ Stub.net;
  Decode_BankingCards := @Decode_BankingCards _ Stub.net;
  Decode_BankAccounts := @Decode_BankAccounts _ Stub.net;
  Decode_Order := λ body,
    if decide (body = Stub.bytes "garbage") then inl json_SyntaxError
    else @Decode_Order _ Stub.net body;
  Decode_OpenOrders := @Decode_OpenOrders _ Stub.net;
  Decode_Trades := @Decode_Trades _ Stub.net;
|}.

Definition refused : GoError := lib_error "connection refused".

Definition offline : World := {|
  os_Getenv := λ _, "";
  RoundTrip := λ _ _, inl refused;
|}.
End Failing.

(** * Properties of Number *)

Module NumberFacts.
Import Number.
Section number_properties.
Context {lib : NumberLib} {lib_spec : NumberLibSpec}.

Ltac run_decoder :=
  unfold UnmarshalJSON, json_Unmarshal_string, json_Unmarshal_float64.

(** A string that [ParseFloat] accepts is not empty. *)
Lemma parsed_not_empty (s : string) :
  (strconv_ParseFloat s).2 = None → s ≠ "".
Proof. intros Hok ->. by rewrite ParseFloat_empty in Hok. Qed.

Lemma Float_undefined : Float "" = float64_zero.
Proof. unfold Float. by rewrite ParseFloat_empty. Qed.

(** C2.  A payload that is a JSON string whose contents [s] are accepted
    by [ParseFloat] with value [f] makes [UnmarshalJSON] store [s] as it
    is and return nil; afterwards [IsUndefined] is false and [Float] is
    [f]. *)
Theorem UnmarshalJSON_keeps_numeric_string
    (n : Number) (data : list byte) (s : string) (f : float64) :
  json_scan data = Some (JString s) →
  strconv_ParseFloat s = (f, None) →
  UnmarshalJSON n data = (s, None) ∧
  IsUndefined (UnmarshalJSON n data).1 = false ∧
  Float (UnmarshalJSON n data).1 = f.
Proof.
  intros Hscan Hparse.
  assert (Hrun : UnmarshalJSON n data = (s, None)).
  { run_decoder. by rewrite Hscan, Hparse. }
  rewrite Hrun. simpl. split_and!.
  - done.
  - unfold IsUndefined. apply bool_decide_eq_false.
    apply parsed_not_empty. by rewrite Hparse.
  - unfold Float. by rewrite Hparse.
Qed.

(** C3.  [UnmarshalJSON] returns nil on every payload.  A payload that
    is a JSON number whose literal decodes to the float [f] stores
    [fmt.Sprintf("%f", f)].  A payload that is malformed, [null], a
    boolean, an array, an object, a string that [ParseFloat] rejects, or
    a number out of range stores the empty string, so that [IsUndefined]
    is true and [Float] is 0. *)
Theorem UnmarshalJSON_number_or_undefined
    (n : Number) (data : list byte) :
  (UnmarshalJSON n data).2 = None ∧
  (∀ lit f,
     json_scan data = Some (JNumber lit) →
     strconv_ParseFloat lit = (f, None) →
     (UnmarshalJSON n data).1 = fmt_Sprintf_f f) ∧
  (json_scan data = None ∨
   json_scan data = Some JNull ∨
   (∃ b, json_scan data = Some (JBool b)) ∨
   (∃ xs, json_scan data = Some (JArray xs)) ∨
   (∃ kvs, json_scan data = Some (JObject kvs)) ∨
   (∃ s, json_scan data = Some (JString s) ∧
         (strconv_ParseFloat s).2 ≠ None) ∨
   (∃ lit, json_scan data = Some (JNumber lit) ∧
           (strconv_ParseFloat lit).2 ≠ None) →
   (UnmarshalJSON n data).1 = "" ∧
   IsUndefined (UnmarshalJSON n data).1 = true ∧
   Float (UnmarshalJSON n data).1 = float64_zero).
Proof.
  split_and!.
  - run_decoder. repeat case_match; simplify_eq/=; done.
  - intros lit f Hscan Hparse. run_decoder. by rewrite Hscan, Hparse.
  - intros Hother.
    assert (Hrun : (UnmarshalJSON n data).1 = "").
    { run_decoder.
      destruct Hother as
        [Hs|[Hs|[[b Hs]|[[xs Hs]|[[kvs Hs]|[(s & Hs & Hp)|(lit & Hs & Hp)]]]]]];
        rewrite Hs; simpl; try done.
      - rewrite ParseFloat_empty. done.
      - destruct (strconv_ParseFloat s) as [v [e|]]; done.
      - destruct (strconv_ParseFloat lit) as [v [e|]]; done. }
    rewrite Hrun. split_and!; [done | done | apply Float_undefined].
Qed.

(** C7.  Whatever the payload, [UnmarshalJSON] returns nil, and the
    string it stores is empty or accepted by [ParseFloat]. *)
Theorem UnmarshalJSON_stores_empty_or_parsable
    (n : Number) (data : list byte) :
  (UnmarshalJSON n data).2 = None ∧
  ((UnmarshalJSON n data).1 = "" ∨
   (strconv_ParseFloat (UnmarshalJSON n data).1).2 = None).
Proof.
  run_decoder.
  destruct (json_scan data) as [[|b|lit|s|xs|kvs]|]; simpl;
    rewrite ?ParseFloat_empty; simpl; auto.
  - destruct (strconv_ParseFloat lit) as [v [e|]]; simpl; auto.
    split; [done|]. right. apply ParseFloat_Sprintf_f.
  - destruct (strconv_ParseFloat s) as [v [e|]] eqn:Hparse; simpl; auto.
    split; [done|]. right. by rewrite Hparse.
Qed.
End number_properties.
End NumberFacts.

(** * The reference model satisfies the assumed facts *)

Module RefFacts.
Import Ref.

Lemma code_chr (x : Z) : 0 ≤ x < 256 → code (chr x) = x.
Proof.
  intros Hx. unfold code, chr. rewrite N_ascii_embedding; lia.
Qed.

Lemma digit_chr (d : Z) :
  0 ≤ d ≤ 9 → is_digit (chr (48 + d)) = true ∧ digit_value (chr (48 + d)) = d.
Proof.
  intros Hd. unfold is_digit, between, digit_value.
  rewrite code_chr by lia. split; lia.
Qed.

Lemma digit_code (c : ascii) : is_digit c = true → 48 ≤ code c ≤ 57.
Proof. unfold is_digit, between. lia. Qed.

Lemma digit_lower (c : ascii) : is_digit c = true → lower c = code c.
Proof.
  intros Hc%digit_code. unfold lower.
  assert (Hcases : code c ∈ [48; 49; 50; 51; 52; 53; 54; 55; 56; 57]).
  { assert (code c = 48 ∨ code c = 49 ∨ code c = 50 ∨ code c = 51 ∨
            code c = 52 ∨ code c = 53 ∨ code c = 54 ∨ code c = 55 ∨
            code c = 56 ∨ code c = 57) as Hor by lia.
    rewrite !elem_of_cons. tauto. }
  rewrite !elem_of_cons, elem_of_nil in Hcases.
  destruct_or!; try done; by rewrite Hcases.
Qed.

(** *** Printing and reading back decimal digits *)

Lemma value_of_app acc ds1 ds2 :
  value_of acc (ds1 ++ ds2) = value_of (value_of acc ds1) ds2.
Proof. apply foldl_app. Qed.

Lemma value_of_shift acc ds :
  value_of acc ds = acc * 10 ^ Z.of_nat (length ds) + value_of 0 ds.
Proof.
  revert acc. induction ds as [|c ds IH]; intros acc.
  - simpl. lia.
  - cbn [value_of foldl length]. fold (value_of (acc * 10 + digit_value c) ds).
    fold (value_of (0 * 10 + digit_value c) ds).
    rewrite (IH (acc * 10 + _)), (IH (0 * 10 + _)).
    rewrite Nat2Z.inj_succ, Z.pow_succ_r by lia. lia.
Qed.

Lemma digits_from_spec (fuel : nat) (n : Z) (tail : list ascii) :
  fuel ≠ 0%nat → 0 ≤ n < 2 ^ Z.of_nat fuel →
  ∃ ds, digits_from fuel n tail = ds ++ tail ∧ ds ≠ [] ∧
        Forall (λ c, is_digit c = true) ds ∧ value_of 0 ds = n.
Proof.
  revert n tail. induction fuel as [|fuel IH]; intros n tail Hfuel Hn; [done|].
  cbn [digits_from].
  destruct (digit_chr (n mod 10)) as [Hdig Hval].
  { pose proof (Z.mod_pos_bound n 10). lia. }
  destruct (Z.ltb_spec n 10) as [Hsmall|Hbig].
  - exists [chr (48 + n mod 10)]. split_and!; [done | done | by constructor |].
    cbn. rewrite Hval. rewrite Z.mod_small; lia.
  - rewrite Nat2Z.inj_succ, Z.pow_succ_r in Hn by lia.
    destruct (IH (n / 10) (chr (48 + n mod 10) :: tail))
      as (ds & Hrun & Hne & Hall & Hds).
    + intros ->. simpl in Hn. lia.
    + split; [apply Z.div_pos; lia|].
      apply Z.div_lt_upper_bound; lia.
    + exists (ds ++ [chr (48 + n mod 10)]). split_and!.
      * by rewrite Hrun, <- app_assoc.
      * by destruct ds.
      * apply Forall_app. split; [done | by constructor].
      * rewrite value_of_app, Hds. cbn. rewrite Hval.
        pose proof (Z.div_mod n 10). lia.
Qed.

Lemma digits_spec (n : Z) :
  0 ≤ n →
  digits n ≠ [] ∧ Forall (λ c, is_digit c = true) (digits n) ∧
  value_of 0 (digits n) = n.
Proof.
  intros Hn. unfold digits.
  destruct (digits_from_spec (S (Z.to_nat (Z.log2 n))) n [])
    as (ds & Hrun & Hne & Hall & Hds); [done | |].
  - split; [done|]. rewrite Nat2Z.inj_succ, Z2Nat.id by apply Z.log2_nonneg.
    destruct (decide (n = 0)) as [->|]; [done|].
    apply Z.log2_spec. lia.
  - rewrite app_nil_r in Hrun. by rewrite Hrun.
Qed.

Lemma pad_spec (width : nat) (ds : list ascii) :
  Forall (λ c, is_digit c = true) ds →
  Forall (λ c, is_digit c = true) (pad width ds) ∧
  value_of 0 (pad width ds) = value_of 0 ds ∧
  (width ≤ length (pad width ds))%nat.
Proof.
  intros Hds. unfold pad. split_and!.
  - apply Forall_app. split; [|done]. apply Forall_replicate.
    apply (digit_chr 0). lia.
  - rewrite value_of_app. f_equal.
    induction (width - length ds)%nat as [|k IH]; [done|]. exact IH.
  - rewrite length_app, length_replicate. lia.
Qed.

(** *** Reading back what the verb %f prints *)

Abbreviation digit_list := (Forall (λ c : ascii, is_digit c = true)).

Lemma read_mantissa_digits ds rest m f sd sg us :
  digit_list ds →
  read_mantissa false (ds ++ rest)
    {| mant := m; frac_digits := f; sawdot := sd; sawdigits := sg;
       underscores := us |} =
  read_mantissa false rest
    {| mant := value_of m ds;
       frac_digits := f + (if sd then Z.of_nat (length ds) else 0);
       sawdot := sd; sawdigits := sg || bool_decide (ds ≠ []);
       underscores := us |}.
Proof.
  intros Hds. revert m f sg.
  induction Hds as [|c ds Hc Hds IH]; intros m f sg.
  - simpl. rewrite orb_false_r. by destruct sd; rewrite Z.add_0_r.
  - cbn [app read_mantissa].
    pose proof (digit_code c Hc) as Hcode.
    unfold is_char. rewrite Hc.
    destruct (Z.eqb_spec (code c) 95) as [?|_]; [lia|].
    destruct (Z.eqb_spec (code c) 46) as [?|_]; [lia|].
    cbn [mant frac_digits sawdot sawdigits underscores].
    rewrite IH. f_equal. f_equal.
    + destruct sd; cbn [length]; lia.
    + by rewrite orb_true_r.
Qed.

Lemma special_of_number (s : list ascii) :
  chr 46 ∈ s → special s = None.
Proof.
  intros Hdot. unfold special.
  assert (Hfolded : chr 46 ∈ chars (text (fold_case <$> s))).
  { unfold chars, text. rewrite list_ascii_of_string_of_list_ascii.
    change (chr 46) with (fold_case (chr 46)). by apply list_elem_of_fmap_2. }
  repeat case_decide; try done; destruct_or?;
    match goal with
    | Heq : text _ = _ |- _ => rewrite Heq in Hfolded
    end;
    apply list_elem_of_In in Hfolded; vm_compute in Hfolded;
    intuition discriminate.
Qed.

Lemma read_printed ds1 ds2 :
  digit_list ds1 → digit_list ds2 →
  read_mantissa false (ds1 ++ chr 46 :: ds2)
    {| mant := 0; frac_digits := 0; sawdot := false; sawdigits := false;
       underscores := false |} =
  ({| mant := value_of (value_of 0 ds1) ds2;
      frac_digits := Z.of_nat (length ds2); sawdot := true;
      sawdigits := bool_decide (ds1 ≠ []) || bool_decide (ds2 ≠ []);
      underscores := false |}, []).
Proof.
  intros H1 H2. rewrite read_mantissa_digits by done.
  cbn [read_mantissa]. change (is_char 95 (chr 46)) with false.
  change (is_char 46 (chr 46)) with true.
  cbn [sawdot mant frac_digits sawdigits underscores].
  rewrite <- (app_nil_r ds2) at 1. rewrite read_mantissa_digits by done.
  cbn [read_mantissa]. by rewrite !Z.add_0_l, orb_false_l.
Qed.

Lemma no_hex_prefix ds rest :
  digit_list ds → has_prefix [120] (ds ++ chr 46 :: rest) = false.
Proof.
  intros Hds. destruct Hds as [|c0 ds Hc0 Hds]; [by destruct rest|].
  destruct Hds as [|c1 ds Hc1 Hds]; cbn [app has_prefix].
  - apply andb_false_intro2. apply bool_decide_eq_false.
    vm_compute. intros Hin. apply list_elem_of_In in Hin.
    vm_compute in Hin. intuition discriminate.
  - apply andb_false_intro2. apply bool_decide_eq_false.
    rewrite (digit_lower c1 Hc1). pose proof (digit_code c1 Hc1).
    rewrite elem_of_cons, elem_of_nil. lia.
Qed.

Lemma readFloat_printed (neg : bool) ds1 ds2 :
  ds1 ≠ [] → digit_list ds1 → digit_list ds2 →
  readFloat ((if neg then [chr 45] else []) ++ ds1 ++ chr 46 :: ds2) =
    Some (neg, false, value_of (value_of 0 ds1) ds2, - Z.of_nat (length ds2)).
Proof.
  intros Hne H1 H2.
  assert (Hsign :
    strip_sign ((if neg then [chr 45] else []) ++ ds1 ++ chr 46 :: ds2) =
    (neg, ds1 ++ chr 46 :: ds2)).
  { destruct neg; [done|]. destruct H1 as [|c ds1 Hc H1]; [done|].
    cbn [app strip_sign]. pose proof (digit_code c Hc). unfold is_char.
    destruct (Z.eqb_spec (code c) 43) as [?|_]; [lia|].
    destruct (Z.eqb_spec (code c) 45) as [?|_]; [lia|]. done. }
  unfold readFloat. rewrite Hsign.
  destruct ((if neg then [chr 45] else []) ++ ds1 ++ chr 46 :: ds2) eqn:Hs.
  { destruct neg, ds1; done. }
  rewrite no_hex_prefix by done. cbn [andb].
  rewrite read_printed by done.
  cbn [sawdigits underscores mant frac_digits].
  rewrite bool_decide_eq_true_2 by done. cbn [orb negb andb].
  f_equal. f_equal. lia.
Qed.

Lemma round_half_even_bounds (a b : Z) :
  0 ≤ a → 0 < b → 0 ≤ round_half_even a b ≤ a / b + 1.
Proof.
  intros Ha Hb. unfold round_half_even.
  pose proof (Z.div_pos a b Ha Hb).
  repeat case_match; lia.
Qed.

(** A decimal with an integer part below the threshold, as [%f] prints
    it, is accepted by [ParseFloat]. *)
Lemma ParseFloat_printed (neg : bool) (scaled : Z) :
  0 ≤ scaled → scaled / 10 ^ 6 + 1 ≤ overflow_threshold →
  (ParseFloat
     (text ((if neg then [chr 45] else [])
            ++ digits (scaled / 10 ^ 6)
            ++ [chr 46] ++ pad 6 (digits (scaled mod 10 ^ 6))))).2 = None.
Proof.
  intros Hscaled Hbound.
  destruct (digits_spec (scaled / 10 ^ 6)) as (Hne1 & Hall1 & Hval1).
  { apply Z.div_pos; lia. }
  pose proof (Z.mod_pos_bound scaled (10 ^ 6) ltac:(lia)) as Hfrac.
  destruct (digits_spec (scaled mod 10 ^ 6)) as (_ & Hall2 & Hval2); [lia|].
  destruct (pad_spec 6 _ Hall2) as (Hall3 & Hval3 & Hlen).
  rewrite Hval2 in Hval3.
  unfold ParseFloat, chars, text.
  rewrite list_ascii_of_string_of_list_ascii.
  rewrite special_of_number by (rewrite !elem_of_app, elem_of_cons; auto).
  cbn [app]. rewrite readFloat_printed by done.
  set (ds2 := pad 6 (digits (scaled mod 10 ^ 6))) in *.
  rewrite (value_of_shift _ ds2), Hval1, Hval3.
  set (k := Z.of_nat (length ds2)) in *.
  assert (Hk : 6 ≤ k) by lia.
  destruct (Z.leb_spec 0 (- k)) as [?|_]; [lia|].
  rewrite Z.opp_involutive. unfold to_float64.
  destruct (_ =? 0); [done|].
  assert (Hpow : 10 ^ 6 ≤ 10 ^ k) by (apply Z.pow_le_mono_r; lia).
  destruct (Z.leb_spec (overflow_threshold * 10 ^ k)
                       (scaled / 10 ^ 6 * 10 ^ k + scaled mod 10 ^ 6))
    as [Hover|_]; [|done].
  exfalso. nia.
Qed.

Lemma bits_bounds (b : Z) :
  0 ≤ bits_frac b < 2 ^ 52 ∧ 0 ≤ bits_exp b < 2 ^ 11.
Proof.
  unfold bits_frac, bits_exp.
  split; apply Z.mod_pos_bound; lia.
Qed.

Lemma ParseFloat_Sprintf_f (b : Z) : (ParseFloat (Sprintf_f b)).2 = None.
Proof.
  unfold Sprintf_f.
  destruct (bits_bounds b) as [Hfrac Hexp].
  destruct (Z.eqb_spec (bits_exp b) 2047) as [_|Hfinite].
  { by destruct (_ =? 0), (bits_neg b). }
  assert (Hpos : 0 < 10 ^ 6) by lia.
  destruct (Z.eqb_spec (bits_exp b) 0) as [_|Hnormal].
  - (* subnormal or zero *)
    change (0 <=? -1074) with false. cbv iota beta.
    pose proof (round_half_even_bounds (bits_frac b * 10 ^ 6) (2 ^ (- (-1074)))
                  ltac:(lia) ltac:(lia)) as [Hlo Hhi].
    apply ParseFloat_printed; [done|].
    assert (bits_frac b * 10 ^ 6 / 2 ^ (- (-1074)) ≤ bits_frac b * 10 ^ 6).
    { apply Z.div_le_upper_bound; [lia|]. nia. }
    assert (round_half_even (bits_frac b * 10 ^ 6) (2 ^ (- (-1074))) / 10 ^ 6
            ≤ bits_frac b + 1).
    { apply Z.div_le_upper_bound; lia. }
    unfold overflow_threshold. lia.
  - set (m := 2 ^ 52 + bits_frac b). set (e := bits_exp b - 1075).
    assert (Hm : 0 ≤ m < 2 ^ 53) by (unfold m; lia).
    assert (He : -1074 ≤ e ≤ 971) by (unfold e; lia).
    destruct (Z.leb_spec 0 e) as [Hnonneg|Hneg].
    + apply ParseFloat_printed; [nia|].
      rewrite Z.div_mul by lia.
      assert (2 ^ e ≤ 2 ^ 971) by (apply Z.pow_le_mono_r; lia).
      assert (0 < 2 ^ e) by (apply Z.pow_pos_nonneg; lia).
      assert (m * 2 ^ e ≤ (2 ^ 53 - 1) * 2 ^ 971) by nia.
      unfold overflow_threshold. lia.
    + assert (Hb : 1 ≤ 2 ^ (- e)) by (apply (Z.pow_le_mono_r 2 0); lia).
      pose proof (round_half_even_bounds (m * 10 ^ 6) (2 ^ (- e))
                    ltac:(lia) ltac:(lia)) as [Hlo Hhi].
      apply ParseFloat_printed; [done|].
      assert (m * 10 ^ 6 / 2 ^ (- e) ≤ m * 10 ^ 6).
      { apply Z.div_le_upper_bound; [lia|]. nia. }
      assert (round_half_even (m * 10 ^ 6) (2 ^ (- e)) / 10 ^ 6 ≤ m + 1).
      { apply Z.div_le_upper_bound; lia. }
      unfold overflow_threshold. lia.
Qed.

#[export] Instance number_lib_spec : NumberLibSpec.
Proof.
  split.
  - reflexivity.
  - exact ParseFloat_Sprintf_f.
Qed.
End RefFacts.

(** * The decoder of Number on payloads, in the reference model *)

Module RefRuns.
Import Number Ref RefFacts.

(** The reference model at the edges of binary64. *)
Example ParseFloat_largest :
  ParseFloat "1.7976931348623157e308" =
    (float64_bits false 2046 (2 ^ 52 - 1), None) ∧
  ParseFloat "1.7976931348623159e308" = (inf false, Some strconv_ErrRange) ∧
  ParseFloat "-1e400" = (inf true, Some strconv_ErrRange).
Proof. vm_compute. auto. Qed.

Example ParseFloat_smallest :
  ParseFloat "4.9e-324" = (1, None) ∧
  ParseFloat "2.4e-324" = (0, None) ∧
  ParseFloat "2.2250738585072014e-308" = (float64_bits false 1 0, None).
Proof. vm_compute. auto. Qed.

Example ParseFloat_ties_to_even :
  ParseFloat "9007199254740993" = ParseFloat "9007199254740992" ∧
  ParseFloat "9007199254740995" = ParseFloat "9007199254740996".
Proof. vm_compute. auto. Qed.

Example ParseFloat_syntax :
  ParseFloat "0x1.8p1" = ParseFloat "3" ∧
  ParseFloat "1_000.5" = ParseFloat "1000.5" ∧
  ParseFloat "+Infinity" = (inf false, None) ∧
  (ParseFloat "1__0").2 = Some strconv_ErrSyntax ∧
  (ParseFloat "0x1").2 = Some strconv_ErrSyntax ∧
  (ParseFloat "1e").2 = Some strconv_ErrSyntax ∧
  (ParseFloat "n/a").2 = Some strconv_ErrSyntax.
Proof. vm_compute. repeat split. Qed.

Example Sprintf_f_rounds_to_six_places :
  Sprintf_f (ParseFloat "100.5").1 = "100.500000" ∧
  Sprintf_f (ParseFloat "-1234567.8901234").1 = "-1234567.890123" ∧
  Sprintf_f (ParseFloat "0.0000015").1 = "0.000002" ∧
  Sprintf_f (ParseFloat "1e22").1 = "10000000000000000000000.000000" ∧
  Sprintf_f (ParseFloat "-0").1 = "-0.000000" ∧
  Sprintf_f nan = "NaN".
Proof. vm_compute. repeat split. Qed.

(** The payloads of the specification. *)
Example decode_quoted_price :
  UnmarshalJSON "" (payload (quoted "100.5")) = ("100.5", None).
Proof. vm_compute. reflexivity. Qed.

Example decode_bare_price :
  UnmarshalJSON "" (payload "100.5") = ("100.500000", None).
Proof. vm_compute. reflexivity. Qed.

Example decode_not_available :
  UnmarshalJSON "" (payload (quoted "n/a")) = ("", None).
Proof. vm_compute. reflexivity. Qed.

Example decode_null_true_object :
  UnmarshalJSON "" (payload "null") = ("", None) ∧
  UnmarshalJSON "" (payload "true") = ("", None) ∧
  UnmarshalJSON "" (payload "{}") = ("", None) ∧
  UnmarshalJSON "" (payload "1e400") = ("", None).
Proof. vm_compute. auto. Qed.

(** The quoted price 100.5 is kept, and read as the float 100.5. *)
Lemma UnmarshalJSON_keeps_numeric_string_witness :
  let data := payload (quoted "100.5") in
  json_scan data = Some (JString "100.5") ∧
  ParseFloat "100.5" = (float64_bits false 1029 0x9200000000000, None) ∧
  UnmarshalJSON "" data = ("100.5", None) ∧
  IsUndefined (UnmarshalJSON "" data).1 = false ∧
  Float (UnmarshalJSON "" data).1 = float64_bits false 1029 0x9200000000000.
Proof.
  split; [vm_compute; reflexivity|].
  split; [vm_compute; reflexivity|].
  apply (NumberFacts.UnmarshalJSON_keeps_numeric_string (lib := number_lib)
           "" (payload (quoted "100.5")) "100.5"
           (float64_bits false 1029 0x9200000000000));
    vm_compute; reflexivity.
Defined.

(** The bare number 1.5 is stored with six decimals; the string [n/a] is
    stored as the empty string. *)
Lemma UnmarshalJSON_number_or_undefined_witness :
  (UnmarshalJSON "" (payload "1.5")).1 = "1.500000" ∧
  (UnmarshalJSON "" (payload (quoted "n/a"))).2 = None ∧
  (UnmarshalJSON "" (payload (quoted "n/a"))).1 = "" ∧
  IsUndefined (UnmarshalJSON "" (payload (quoted "n/a"))).1 = true ∧
  Float (UnmarshalJSON "" (payload (quoted "n/a"))).1 = 0.
Proof.
  split.
  - destruct (NumberFacts.UnmarshalJSON_number_or_undefined (lib := number_lib)
                "" (payload "1.5")) as (_ & Hnumber & _).
    apply (Hnumber "1.5" (float64_bits false 1023 (2 ^ 51)));
      vm_compute; reflexivity.
  - destruct (NumberFacts.UnmarshalJSON_number_or_undefined (lib := number_lib)
                "" (payload (quoted "n/a"))) as (Hnil & _ & Hother).
    split; [exact Hnil|].
    apply Hother. do 5 right. left. exists "n/a".
    split; [vm_compute; reflexivity | vm_compute; discriminate].
Defined.

(** What is stored for the bare number 0.1 is accepted by [ParseFloat]. *)
Lemma UnmarshalJSON_stores_empty_or_parsable_witness :
  (UnmarshalJSON "" (payload "0.1")).2 = None ∧
  ((UnmarshalJSON "" (payload "0.1")).1 = "" ∨
   (ParseFloat (UnmarshalJSON "" (payload "0.1")).1).2 = None).
Proof.
  exact (NumberFacts.UnmarshalJSON_stores_empty_or_parsable (lib := number_lib)
           "" (payload "0.1")).
Defined.
End RefRuns.

(** * Properties of the client *)

Section client_properties.
Context {payloads : Payloads} {net : Net}.

(** Unfolds one call down to its result and its list of events. *)
Ltac run_call :=
  unfold http_Get, http_Client_Get, http_Client_Do, http_NewRequest;
  unfold mbind, mret, IO_bind, IO_ret; simpl.

Lemma errNonOKResponse_singleton code e :
  errNonOKResponse code ≠ new_Error e.
Proof. unfold errNonOKResponse. repeat case_decide; discriminate. Qed.

Lemma New_apiKey opt w :
  apiKey (New opt w).1 =
    if decide (APIKey opt = "") then os_Getenv w "WALLEX_API_KEY" else "".
Proof. reflexivity. Qed.

(** C4.  With an empty stored credential, each of the ten authenticated
    methods returns [ErrMissingAPIKey] next to the zero value of its
    result, and its run has no event: no request is built by
    [http.NewRequest] and nothing is sent on any transport. *)
Theorem missing_api_key_before_any_request
    (c : Client) (w : World) (p : ptr OrderParams)
    (clientOrderID symbol side : string) :
  apiKey c = "" →
  Client_Profile c w = ((None, Some ErrMissingAPIKey), []) ∧
  Client_Balances c w = ((∅, Some ErrMissingAPIKey), []) ∧
  Client_FeeLevels c w = ((∅, Some ErrMissingAPIKey), []) ∧
  Client_BankingCards c w = (([], Some ErrMissingAPIKey), []) ∧
  Client_BankAccounts c w = (([], Some ErrMissingAPIKey), []) ∧
  Client_PlaceOrder c p w = ((None, Some ErrMissingAPIKey), []) ∧
  Client_CancelOrder c clientOrderID w = (Some ErrMissingAPIKey, []) ∧
  Client_Order c clientOrderID w = ((None, Some ErrMissingAPIKey), []) ∧
  Client_OpenOrders c symbol w = (([], Some ErrMissingAPIKey), []) ∧
  Client_Trades c symbol side w = (([], Some ErrMissingAPIKey), []).
Proof.
  intros Hkey.
  unfold Client_Profile, Client_Balances, Client_FeeLevels,
    Client_BankingCards, Client_BankAccounts, Client_PlaceOrder,
    Client_CancelOrder, Client_Order, Client_OpenOrders, Client_Trades.
  rewrite !decide_True by exact Hkey.
  repeat split.
Qed.

(** Reads the answers out of a hypothesis [answered t h req resp] on a
    list of events that is known. *)
Ltac read_events Hin :=
  unfold answered in Hin; simpl in Hin;
  rewrite ?elem_of_app, ?elem_of_cons, ?elem_of_nil in Hin;
  destruct_or?; simplify_eq/=.

Ltac split_call :=
  run_call; repeat (first [ case_decide | case_match ]; simplify_eq/=).

Ltac mapped_call :=
  intros h req resp Hin Hcode; revert Hin; split_call;
  intros Hin; read_events Hin; try done.

(** C5.  Whenever one of the fifteen methods is answered with a response
    whose status code is not 200, it returns the zero value of its result
    and the error [errNonOKResponse] picks from the code alone: 400, 401,
    403 and 404 give [ErrBadRequest], [ErrUnauthorized], [ErrForbidden]
    and [ErrNotFound], every other code gives [ErrUnknown].  The error is
    one of the package-level variables, never a structure allocated by
    the call, and the body of the response does not enter the result. *)
Theorem non_ok_status_is_category_error
    (c : Client) (w : World) (p : ptr OrderParams)
    (clientOrderID symbol resolution side : string) (from to : Time) :
  status_mapped [] (Client_Markets c w) ∧
  status_mapped [] (Client_Currencies c w) ∧
  status_mapped ([], []) (Client_MarketOrders c symbol w) ∧
  status_mapped [] (Client_MarketTrades c symbol w) ∧
  (∀ h req resp,
     answered (Client_Candles c symbol resolution from to w).2 h req resp →
     StatusCode resp ≠ 200 →
     (Client_Candles c symbol resolution from to w).1 =
       Returned ([], Some (errNonOKResponse (StatusCode resp)))) ∧
  status_mapped None (Client_Profile c w) ∧
  status_mapped ∅ (Client_Balances c w) ∧
  status_mapped ∅ (Client_FeeLevels c w) ∧
  status_mapped [] (Client_BankingCards c w) ∧
  status_mapped [] (Client_BankAccounts c w) ∧
  status_mapped None (Client_PlaceOrder c p w) ∧
  (∀ h req resp,
     answered (Client_CancelOrder c clientOrderID w).2 h req resp →
     StatusCode resp ≠ 200 →
     (Client_CancelOrder c clientOrderID w).1 =
       Some (errNonOKResponse (StatusCode resp))) ∧
  status_mapped None (Client_Order c clientOrderID w) ∧
  status_mapped [] (Client_OpenOrders c symbol w) ∧
  status_mapped [] (Client_Trades c symbol side w) ∧
  errNonOKResponse 400 = ErrBadRequest ∧
  errNonOKResponse 401 = ErrUnauthorized ∧
  errNonOKResponse 403 = ErrForbidden ∧
  errNonOKResponse 404 = ErrNotFound ∧
  (∀ code, code ∉ [400; 401; 403; 404] → errNonOKResponse code = ErrUnknown) ∧
  (∀ code e, errNonOKResponse code ≠ new_Error e).
Proof.
  repeat split.
  - unfold status_mapped, Client_Markets. mapped_call.
  - unfold status_mapped, Client_Currencies. mapped_call.
  - unfold status_mapped, Client_MarketOrders. mapped_call.
  - unfold status_mapped, Client_MarketTrades. mapped_call.
  - unfold Client_Candles. mapped_call.
  - unfold status_mapped, Client_Profile. mapped_call.
  - unfold status_mapped, Client_Balances. mapped_call.
  - unfold status_mapped, Client_FeeLevels. mapped_call.
  - unfold status_mapped, Client_BankingCards. mapped_call.
  - unfold status_mapped, Client_BankAccounts. mapped_call.
  - unfold status_mapped, Client_PlaceOrder. mapped_call.
  - unfold Client_CancelOrder. mapped_call.
  - unfold status_mapped, Client_Order. mapped_call.
  - unfold status_mapped, Client_OpenOrders. mapped_call.
  - unfold status_mapped, Client_Trades. mapped_call.
  - intros code Hcode. unfold errNonOKResponse,
      http_StatusBadRequest, http_StatusUnauthorized, http_StatusForbidden,
      http_StatusNotFound.
    repeat case_decide; subst; try done; exfalso; apply Hcode; set_solver.
  - apply errNonOKResponse_singleton.
Qed.

(** The loop of [Candles], started at index [i] with the timestamps
    from [i] on. *)
Lemma Candles_loop_covered result ts i candles :
  ts = drop i (res_T result) →
  (i + length ts ≤ value_arrays_length result)%nat →
  ∃ more,
    Candles_loop result i ts candles = Returned (candles ++ more) ∧
    length more = length ts ∧
    ∀ j, (j < length ts)%nat →
      ∃ cd, candle_at result (i + j) = Some cd ∧ more !! j = Some (Some cd).
Proof.
  unfold value_arrays_length.
  revert i candles. induction ts as [|t ts IH]; intros i candles Hts Hlen.
  - exists []. simpl. rewrite app_nil_r. split_and!; [done..|]. intros; lia.
  - simpl in Hlen. cbn [Candles_loop].
    assert (Ht : res_T result !! i = Some t).
    { rewrite <- (Nat.add_0_r i), <- lookup_drop, <- Hts. done. }
    destruct (lookup_lt_is_Some_2 (res_O result) i) as [o Ho]; [lia|].
    destruct (lookup_lt_is_Some_2 (res_H result) i) as [h Hh]; [lia|].
    destruct (lookup_lt_is_Some_2 (res_L result) i) as [l Hl]; [lia|].
    destruct (lookup_lt_is_Some_2 (res_C result) i) as [c Hc]; [lia|].
    destruct (lookup_lt_is_Some_2 (res_V result) i) as [v Hv]; [lia|].
    destruct (IH (S i)
      (candles ++ [Some {| Candle_Timestamp := time_Unix t 0;
                           Candle_Open := o; Candle_High := h;
                           Candle_Low := l; Candle_Close := c;
                           Candle_Volume := v |}]))
      as (more & Hrun & Hmore & Hat).
    { rewrite (drop_S _ _ _ Ht) in Hts. by injection Hts. }
    { lia. }
    eexists (_ :: more). rewrite Ho, Hh, Hl, Hc, Hv, Hrun, <- app_assoc.
    simpl. split_and!; [done | by rewrite Hmore |].
    intros [|j] Hj.
    + rewrite Nat.add_0_r. eexists. split; [|done].
      unfold candle_at. by simplify_option_eq.
    + destruct (Hat j) as (cd & Hcd & Hj'); [lia|].
      exists cd. split; [|done].
      by replace (i + S j)%nat with (S i + j)%nat by lia.
Qed.

Lemma Candles_loop_short result ts i candles :
  (i ≤ value_arrays_length result)%nat →
  (value_arrays_length result < i + length ts)%nat →
  Candles_loop result i ts candles =
    IndexOutOfRange (value_arrays_length result)
                    (value_arrays_length result).
Proof.
  unfold value_arrays_length.
  revert i candles. induction ts as [|t ts IH]; intros i candles Hi Hlen.
  - simpl in Hlen. lia.
  - simpl in Hlen. cbn [Candles_loop].
    destruct (res_O result !! i) as [o|] eqn:Ho;
      [apply lookup_lt_Some in Ho
      |apply lookup_ge_None in Ho; f_equal; lia].
    destruct (res_H result !! i) as [h|] eqn:Hh;
      [apply lookup_lt_Some in Hh
      |apply lookup_ge_None in Hh; f_equal; lia].
    destruct (res_L result !! i) as [l|] eqn:Hl;
      [apply lookup_lt_Some in Hl
      |apply lookup_ge_None in Hl; f_equal; lia].
    destruct (res_C result !! i) as [c|] eqn:Hc;
      [apply lookup_lt_Some in Hc
      |apply lookup_ge_None in Hc; f_equal; lia].
    destruct (res_V result !! i) as [v|] eqn:Hv;
      [apply lookup_lt_Some in Hv
      |apply lookup_ge_None in Hv; f_equal; lia].
    apply IH; lia.
Qed.

(** C6.  Take a run of [Candles] that was answered 200 with a body that
    decodes to [result].  If each of the arrays [o], [h], [l], [c], [v]
    is at least as long as [t], the call returns, without error, a list
    of exactly [len(t)] candles whose [i]-th element pairs [t[i]] with
    index [i] of the five other arrays.  If one of them is shorter, the
    call does not return: indexing at the first missing index, the
    least of the five lengths, is out of range. *)
Theorem Candles_needs_value_arrays_as_long_as_timestamps
    (c : Client) (w : World) (symbol resolution : string) (from to : Time)
    (h : http_Client) (req : Request) (resp : Response)
    (result : CandlesResult) :
  let run := Client_Candles c symbol resolution from to w in
  let n := length (res_T result) in
  let m := value_arrays_length result in
  answered run.2 h req resp →
  StatusCode resp = 200 →
  Decode_Candles (Body resp) = inr result →
  ((n ≤ m)%nat →
     ∃ candles,
       run.1 = Returned (candles, None) ∧
       length candles = n ∧
       ∀ i, (i < n)%nat →
         ∃ cd, candle_at result i = Some cd ∧ candles !! i = Some (Some cd)) ∧
  ((m < n)%nat → run.1 = IndexOutOfRange m m).
Proof.
  intros run n m Hin Hcode Hdec. subst run n m.
  pose proof (Candles_loop_covered result (res_T result) 0 [] eq_refl)
    as Hcovered.
  pose proof (Candles_loop_short result (res_T result) 0 []) as Hshort.
  simpl in Hcovered, Hshort.
  revert Hin. unfold Client_Candles. split_call; intros Hin;
    read_events Hin; try done; try congruence;
    match goal with
    | Hd : Decode_Candles _ = inr _ |- _ =>
        rewrite Hdec in Hd; injection Hd as <-
    end.
  - split; intros Hlen.
    + destruct (Hcovered Hlen) as (more & Hrun & Hmore & Hat).
      exists more. split_and!; [congruence | done | done].
    + pose proof (Hshort (Nat.le_0_l _) Hlen). congruence.
  - split; intros Hlen.
    + destruct (Hcovered Hlen) as (more & Hrun & Hmore & Hat). congruence.
    + pose proof (Hshort (Nat.le_0_l _) Hlen). congruence.
Qed.

(** C10.  [Candles] never reads its receiver: two clients, whatever
    transport each was given, run it alike, event for event.  The run is
    the GET of the history URL built by [http.Get] and, when that URL
    parses, its one exchange, which is on [http.DefaultClient] and
    carries no header.  Every exchange of the run is on
    [http.DefaultClient], and a configured transport other than the
    default one sees no request. *)
Theorem Candles_uses_default_transport
    (c1 c2 : Client) (w : World) (symbol resolution : string)
    (from to : Time) :
  let run := Client_Candles c1 symbol resolution from to w in
  let url := Candles_URL symbol resolution from to in
  let get := {| req_Method := "GET"; req_URL := url;
                req_Header := []; req_Body := None |} in
  run = Client_Candles c2 symbol resolution from to w ∧
  run.2 = match url_Parse_error url with
          | Some _ => [ev_NewRequest "GET" url None]
          | None => [ev_NewRequest "GET" url None;
                     ev_Do http_DefaultClient get
                       (RoundTrip w http_DefaultClient get)]
          end ∧
  (∀ h req answer, ev_Do h req answer ∈ run.2 → h = http_DefaultClient) ∧
  (∀ url, (∃ body, ev_NewRequest "GET" url body ∈ run.2) →
     url_Parse_error url = None →
     ∃ req, run.2 = [ev_NewRequest "GET" url None;
                     ev_Do http_DefaultClient req
                       (RoundTrip w http_DefaultClient req)]) ∧
  (httpClient c1 ≠ http_DefaultClient →
     ∀ req answer, ev_Do (httpClient c1) req answer ∉ run.2).
Proof.
  intros run url get. subst run url get.
  assert (Hdefault : ∀ h req answer,
    ev_Do h req answer
      ∈ (Client_Candles c1 symbol resolution from to w).2 →
    h = http_DefaultClient).
  { intros h req answer. unfold Client_Candles. split_call;
      intros Hin; read_events Hin; done. }
  split_and!.
  - reflexivity.
  - unfold Client_Candles, Candles_URL. split_call; reflexivity.
  - exact Hdefault.
  - intros url [body Hnew] Hurl. revert Hnew.
    unfold Client_Candles. split_call; intros Hin;
      read_events Hin; try congruence;
      match goal with
      | Hrt : RoundTrip _ _ ?r = _ |- _ =>
          exists r; rewrite Hrt; reflexivity
      end.
  - intros Hother req answer Hin. apply Hother.
    by apply (Hdefault _ req answer).
Qed.

Lemma Markets_loop (kms : list (string * ptr Market)) markets :
  foldl (λ markets km, markets ++ [km.2]) markets kms = markets ++ kms.*2.
Proof.
  revert markets. induction kms as [|km kms IH]; intros markets; simpl.
  - by rewrite app_nil_r.
  - by rewrite IH, <- app_assoc.
Qed.

(** C9.  A run of [Markets] that was answered 200 with a body decoding
    to an envelope with the map [result.symbols] returns, without error,
    the values of that map: one element per entry, in the order [range]
    visited them.  A single entry keyed by its symbol BTCUSDT gives a
    one-element list whose element has [Symbol] BTCUSDT.  A run of
    [Balances] answered 200 returns the decoded map itself. *)
Theorem Markets_lists_values_Balances_returns_map
    `{!NetSpec} (c : Client) (w : World) :
  (∀ h req resp result,
     answered (Client_Markets c w).2 h req resp →
     StatusCode resp = 200 →
     Decode_Markets (Body resp) = inr result →
     ∃ markets,
       (Client_Markets c w).1 = (markets, None) ∧
       markets ≡ₚ (map_to_list (Symbols (Result result))).*2 ∧
       length markets = size (Symbols (Result result)) ∧
       ∀ mk, Symbols (Result result) = {[ Market_Symbol mk := Some mk ]} →
             Market_Symbol mk = "BTCUSDT" →
             ∃ e, markets = [Some e] ∧ Market_Symbol e = "BTCUSDT") ∧
  (∀ h req resp result,
     answered (Client_Balances c w).2 h req resp →
     StatusCode resp = 200 →
     Decode_Balances (Body resp) = inr result →
     (Client_Balances c w).1 = (Balances (Result result), None)).
Proof.
  split.
  - intros h req resp result Hin Hcode Hdec. revert Hin.
    unfold Client_Markets. split_call; intros Hin; read_events Hin;
      try done; try congruence.
    match goal with
    | Hd : Decode_Markets _ = inr _ |- _ =>
        rewrite Hdec in Hd; injection Hd as <-
    end.
    rewrite Markets_loop. simpl.
    pose proof (map_range_Permutation (Symbols (Result result))) as Hperm.
    eexists. split_and!; [done | by rewrite Hperm | |].
    + by rewrite Hperm, length_fmap, length_map_to_list.
    + intros mk Hone Hsym. exists mk. split; [|done].
      rewrite Hone in Hperm |- *. rewrite map_to_list_singleton in Hperm.
      apply Permutation_singleton_r in Hperm. by rewrite Hperm.
  - intros h req resp result Hin Hcode Hdec. revert Hin.
    unfold Client_Balances. split_call; intros Hin; read_events Hin;
      try done; congruence.
Qed.

(** C8, as the code has it.  The body [PlaceOrder] builds and sends is
    what [json.Marshal] writes for the parameters: the keys [symbol],
    [type], [side], [price] and [quantity] are always there, each with
    its field as a string, empty or not; [client_id] is there exactly when
    [ClientID] is not empty, so an empty [ClientID] leaves no [client_id]
    key in the body. *)
Theorem PlaceOrder_body_omits_only_empty_client_id
    (c : Client) (w : World) (p : OrderParams) :
  let j := OrderParams_JSON p in
  let run := Client_PlaceOrder c (Some p) w in
  apiKey c ≠ "" →
  (∃ rest, run.2 = ev_NewRequest "POST" (baseURL +:+ "/v1/account/orders")
                     (Some (json_encode j)) :: rest) ∧
  (∀ h req answer, ev_Do h req answer ∈ run.2 →
     req_Body req = Some (json_encode j)) ∧
  json_keys j =
    ["symbol"; "type"; "side"; "price"; "quantity"]
    ++ (if decide (OrderParams_ClientID p = "") then [] else ["client_id"]) ∧
  json_member j "symbol" = Some (JString (OrderParams_Symbol p)) ∧
  json_member j "type" = Some (JString (OrderParams_Type p)) ∧
  json_member j "side" = Some (JString (OrderParams_Side p)) ∧
  json_member j "price" = Some (JString (OrderParams_Price p)) ∧
  json_member j "quantity" = Some (JString (OrderParams_Quantity p)) ∧
  json_member j "client_id" =
    (if decide (OrderParams_ClientID p = "") then None
     else Some (JString (OrderParams_ClientID p))) ∧
  (OrderParams_ClientID p = "" → "client_id" ∉ json_keys j).
Proof.
  intros j run Hkey. subst j run. split_and!.
  - unfold Client_PlaceOrder, json_Marshal_OrderParams.
    split_call; eauto.
  - intros h req answer. unfold Client_PlaceOrder, json_Marshal_OrderParams.
    split_call; intros Hin; read_events Hin; done.
  - unfold OrderParams_JSON. simpl. by case_decide.
  - reflexivity.
  - reflexivity.
  - reflexivity.
  - reflexivity.
  - reflexivity.
  - unfold OrderParams_JSON. by case_decide.
  - intros Hid. unfold OrderParams_JSON. simpl.
    rewrite decide_True by done. simpl. intros Hin. read_events Hin.
Qed.

(** Every request an authenticated method sends carries the stored
    credential under the header [x-api-key]. *)
Lemma authenticated_requests_carry_apiKey
    (c : Client) (w : World) (p : ptr OrderParams)
    (clientOrderID symbol side : string) h req answer :
  ev_Do h req answer ∈
    (Client_Profile c w).2 ++ (Client_Balances c w).2 ++
    (Client_FeeLevels c w).2 ++ (Client_BankingCards c w).2 ++
    (Client_BankAccounts c w).2 ++ (Client_PlaceOrder c p w).2 ++
    (Client_CancelOrder c clientOrderID w).2 ++
    (Client_Order c clientOrderID w).2 ++
    (Client_OpenOrders c symbol w).2 ++ (Client_Trades c symbol side w).2 →
  (apiKeyHeader, apiKey c) ∈ req_Header req.
Proof.
  rewrite !elem_of_app. intros Hin. destruct_or?; revert Hin.
  - unfold Client_Profile. split_call; intros Hin; read_events Hin;
      constructor.
  - unfold Client_Balances. split_call; intros Hin; read_events Hin;
      constructor.
  - unfold Client_FeeLevels. split_call; intros Hin; read_events Hin;
      constructor.
  - unfold Client_BankingCards. split_call; intros Hin; read_events Hin;
      constructor.
  - unfold Client_BankAccounts. split_call; intros Hin; read_events Hin;
      constructor.
  - unfold Client_PlaceOrder. split_call; intros Hin; read_events Hin;
      constructor.
  - unfold Client_CancelOrder. split_call; intros Hin; read_events Hin;
      constructor.
  - unfold Client_Order. split_call; intros Hin; read_events Hin;
      constructor.
  - unfold Client_OpenOrders. split_call; intros Hin; read_events Hin;
      constructor.
  - unfold Client_Trades. split_call; intros Hin; read_events Hin;
      constructor.
Qed.

(** C1, where the code departs from it.  [New] assigns [apiKey] only in
    the branch that reads [WALLEX_API_KEY]: with an [APIKey] that is not
    empty the stored credential stays empty, the environment is not
    consulted, and [Profile] on the new client returns
    [ErrMissingAPIKey] without sending a request that could carry the
    header.  With an empty [APIKey] the variable is the credential. *)
Theorem New_drops_configured_APIKey (opt : ClientOptions) (w : World) :
  let c := (New opt w).1 in
  (APIKey opt ≠ "" →
     apiKey c = "" ∧
     Client_Profile c w = ((None, Some ErrMissingAPIKey), [])) ∧
  (APIKey opt = "" → apiKey c = os_Getenv w "WALLEX_API_KEY").
Proof.
  intros c. subst c. split; intros Hopt.
  - assert (Hkey : apiKey (New opt w).1 = "").
    { rewrite New_apiKey. by rewrite decide_False. }
    split; [done|].
    unfold Client_Profile. by rewrite decide_True.
  - rewrite New_apiKey. by rewrite decide_True.
Qed.
End client_properties.

(** * Runs against the stub *)

Module StubRuns.
Import Stub.

#[export] Instance net_spec : NetSpec.
Proof. split. intros m. reflexivity. Qed.

(** C8, as the specification states it, fails: a member of the body can
    be an empty string.  For parameters with every field empty the body that
    [PlaceOrder] sends has the five keys [symbol] to [quantity], each with
    the empty string. *)
Lemma PlaceOrder_serializes_empty_fields :
  ¬ (∀ (p : OrderParams) (k v : string),
       json_member (OrderParams_JSON p) k = Some (JString v) → v ≠ "") ∧
  (Client_PlaceOrder (Stub.client "k") (Some Stub.empty_order)
     (Stub.world 200 "")).2 =
    let body :=
      json_encode
        (JObject [("symbol", JString ""); ("type", JString "");
                  ("side", JString ""); ("price", JString "");
                  ("quantity", JString "")]) in
    [ev_NewRequest "POST" "https://api.wallex.ir/v1/account/orders" (Some body);
     ev_Do (http_client_at 1)
       {| req_Method := "POST";
          req_URL := "https://api.wallex.ir/v1/account/orders";
          req_Header := [("x-api-key", "k")];
          req_Body := Some body |}
       (inr {| StatusCode := 200; Body := [] |})].
Proof.
  split.
  - intros Hall.
    by apply (Hall Stub.empty_order "symbol" "").
  - reflexivity.
Qed.

(** Without a credential, [Profile] and the nine other methods stop
    before any request. *)
Lemma missing_api_key_before_any_request_witness :
  apiKey (client "") = "" ∧
  Client_Profile (client "") (world 200 "") =
    ((None, Some ErrMissingAPIKey), []) ∧
  Client_PlaceOrder (client "") (Some order) (world 200 "") =
    ((None, Some ErrMissingAPIKey), []).
Proof.
  split; [reflexivity|].
  pose proof (missing_api_key_before_any_request (client "") (world 200 "")
                (Some order) "id" "BTCUSDT" "BUY" eq_refl) as Hall.
  split; [apply Hall|]. apply Hall.
Defined.

(** A transport that answers 404 makes [Markets] and [CancelOrder] return
    [ErrNotFound]. *)
Lemma non_ok_status_is_category_error_witness :
  Client_Markets (client "k") (world 404 "") = (([], Some ErrNotFound),
    [ev_NewRequest "GET" "https://api.wallex.ir/v1/markets" None;
     ev_Do (http_client_at 1)
       {| req_Method := "GET"; req_URL := "https://api.wallex.ir/v1/markets";
          req_Header := []; req_Body := None |}
       (inr {| StatusCode := 404; Body := [] |})]) ∧
  (Client_Markets (client "k") (world 404 "")).1 =
    ([], Some (errNonOKResponse 404)) ∧
  (Client_CancelOrder (client "k") "id" (world 404 "")).1 =
    Some (errNonOKResponse 404).
Proof.
  split; [reflexivity|].
  pose proof (non_ok_status_is_category_error (client "k") (world 404 "")
                (Some order) "id" "BTCUSDT" Hour "BUY"
                (time_Unix 0 0) (time_Unix 60 0)) as Hall.
  split.
  - destruct Hall as (Hmarkets & _).
    eapply (Hmarkets _ _ {| StatusCode := 404; Body := [] |});
      [|discriminate].
    unfold answered. simpl. rewrite !elem_of_cons. auto.
  - destruct Hall as (_ & _ & _ & _ & _ & _ & _ & _ & _ & _ & _ & Hcancel & _).
    eapply (Hcancel _ _ {| StatusCode := 404; Body := [] |});
      [|discriminate].
    unfold answered. simpl. rewrite !elem_of_cons. auto.
Defined.

(** Two timestamps with two values each give two candles; with only one
    low the call stops at index 1. *)
Lemma Candles_needs_value_arrays_as_long_as_timestamps_witness :
  (∃ cs,
     (Client_Candles (client "k") "BTCUSDT" Hour (time_Unix 0 0)
        (time_Unix 60 0) (world 200 "")).1 = Returned (cs, None) ∧
     length cs = 2%nat ∧
     ∀ i, (i < 2)%nat →
       ∃ cd, candle_at candles i = Some cd ∧ cs !! i = Some (Some cd)) ∧
  (Client_Candles (client "k") "BTCUSDT" Hour (time_Unix 0 0)
     (time_Unix 60 0) (world 200 "short")).1 = IndexOutOfRange 1 1.
Proof.
  split.
  - refine (proj1 (Candles_needs_value_arrays_as_long_as_timestamps
             (client "k") (world 200 "") "BTCUSDT" Hour (time_Unix 0 0)
             (time_Unix 60 0) http_DefaultClient _
             {| StatusCode := 200; Body := [] |} candles _ eq_refl eq_refl) _).
    + unfold answered. simpl. rewrite !elem_of_cons. auto.
    + unfold value_arrays_length. simpl. lia.
  - refine (proj2 (Candles_needs_value_arrays_as_long_as_timestamps
             (client "k") (world 200 "short") "BTCUSDT" Hour (time_Unix 0 0)
             (time_Unix 60 0) http_DefaultClient _
             {| StatusCode := 200; Body := bytes "short" |} short_candles
             _ eq_refl eq_refl) _).
    + unfold answered. simpl. rewrite !elem_of_cons. auto.
    + unfold value_arrays_length. simpl. lia.
Defined.

(** An order without a client identifier is sent with five keys. *)
Lemma PlaceOrder_body_omits_only_empty_client_id_witness :
  apiKey (client "k") ≠ "" ∧
  json_keys (OrderParams_JSON order) =
    ["symbol"; "type"; "side"; "price"; "quantity"] ∧
  json_member (OrderParams_JSON order) "client_id" = None ∧
  "client_id" ∉ json_keys (OrderParams_JSON order).
Proof.
  split; [discriminate|].
  destruct (PlaceOrder_body_omits_only_empty_client_id
              (client "k") (world 200 "") order)
    as (_ & _ & Hkeys & _ & _ & _ & _ & _ & Hid & Hnone); [discriminate|].
  split; [exact Hkeys|]. split; [exact Hid|]. by apply Hnone.
Defined.

(** The body of the specification: one market keyed by BTCUSDT. *)
Lemma Markets_lists_values_Balances_returns_map_witness :
  (∃ e, (Client_Markets (client "") (world 200 "")).1 = ([Some e], None) ∧
        Market_Symbol e = "BTCUSDT") ∧
  (Client_Balances (client "k") (world 200 "")).1 = (balances, None).
Proof.
  destruct (Markets_lists_values_Balances_returns_map
              (client "") (world 200 "")) as [Hmarkets _].
  destruct (Markets_lists_values_Balances_returns_map
              (client "k") (world 200 "")) as [_ Hbalances].
  split.
  - destruct (Hmarkets (http_client_at 1)
                {| req_Method := "GET";
                   req_URL := "https://api.wallex.ir/v1/markets";
                   req_Header := []; req_Body := None |}
                {| StatusCode := 200; Body := [] |}
                {| Result := {| Symbols := symbols |} |})
      as (markets & Hrun & _ & _ & Hone); [|done|done|].
    { unfold answered. simpl. rewrite !elem_of_cons. auto. }
    destruct (Hone (market "BTCUSDT") eq_refl eq_refl) as (e & -> & Hsym).
    exists e. by split.
  - apply (Hbalances (http_client_at 1)
             {| req_Method := "GET";
                req_URL := "https://api.wallex.ir/v1/account/balances";
                req_Header := [("x-api-key", "k")]; req_Body := None |}
             {| StatusCode := 200; Body := [] |}
             {| Result := {| Balances := balances |} |}); [|done|done].
    unfold answered. simpl. rewrite !elem_of_cons. auto.
Defined.

(** A client with its own transport: [Candles] sends its request on
    [http.DefaultClient] and leaves the transport of the client alone. *)
Lemma Candles_uses_default_transport_witness :
  let run := Client_Candles (client "k") "BTCUSDT" Hour (time_Unix 0 0)
               (time_Unix 60 0) (world 200 "") in
  let url :=
    "https://api.wallex.ir/v1/udf/history?symbol=BTCUSDT&resolution=60&from=0&to=60" in
  httpClient (client "k") ≠ http_DefaultClient ∧
  run.2 = [ev_NewRequest "GET" url None;
           ev_Do http_DefaultClient
             {| req_Method := "GET"; req_URL := url;
                req_Header := []; req_Body := None |}
             (inr {| StatusCode := 200; Body := [] |})] ∧
  ∀ req answer, ev_Do (http_client_at 1) req answer ∉ run.2.
Proof.
  split; [discriminate|].
  destruct (Candles_uses_default_transport (client "k") (client "")
              (world 200 "") "BTCUSDT" Hour (time_Unix 0 0) (time_Unix 60 0))
    as (_ & Htrace & _ & _ & Hnot).
  split; [exact Htrace|]. apply Hnot. discriminate.
Defined.

(** The client of the README: the key given to [New] is not stored. *)
Lemma New_drops_configured_APIKey_witness :
  let opt := {| APIKey := "xxx|xxxxx"; HTTPClient := None |} in
  let w := world_with_key "env-key" 200 "" in
  APIKey opt ≠ "" ∧
  apiKey (New opt w).1 = "" ∧
  Client_Profile (New opt w).1 w = ((None, Some ErrMissingAPIKey), []).
Proof.
  split; [discriminate|].
  apply (New_drops_configured_APIKey
           {| APIKey := "xxx|xxxxx"; HTTPClient := None |}
           (world_with_key "env-key" 200 "")).
  discriminate.
Defined.
End StubRuns.

(** * Further properties of the client *)

Section runs.
Context {payloads : Payloads} {net : Net}.

Ltac same_run :=
  unfold authenticated, call, decoded, answer_result, request_of,
    http_Get, http_Client_Get, http_Client_Do, http_NewRequest, Header_Add;
  unfold mbind, mret, IO_bind, IO_ret; simpl;
  try (case_decide; [reflexivity|]); simpl;
  destruct (url_Parse_error _) as [?|]; simpl; [reflexivity|];
  destruct (RoundTrip _ _ _) as [?|resp]; simpl; [reflexivity|];
  destruct (decide (StatusCode resp ≠ _)); simpl; [reflexivity|];
  repeat match goal with
         | |- context [match ?d (Body resp) with _ => _ end] =>
             destruct (d (Body resp)); simpl
         | |- context [Candles_loop ?r ?i ?ts ?acc] =>
             destruct (Candles_loop r i ts acc); simpl
         end;
  reflexivity.

(** *** Each method is one call *)

Lemma Markets_call c w :
  Client_Markets c w =
  call None (httpClient c) "GET" (baseURL +:+ "/v1/markets") None []
    (decoded Decode_Markets
       (λ result, foldl (λ markets km, markets ++ [km.2]) []
                    (map_range (Symbols (Result result))))) w.
Proof. unfold Client_Markets. same_run. Qed.

Lemma Currencies_call c w :
  Client_Currencies c w =
  call None (httpClient c) "GET" (baseURL +:+ "/v1/currencies/stats") None []
    (decoded Decode_Currencies Result) w.
Proof. unfold Client_Currencies. same_run. Qed.

Lemma MarketOrders_call c symbol w :
  Client_MarketOrders c symbol w =
  call None (httpClient c) "GET"
    (baseURL +:+ "/v1/depth?" +:+ url_Values_Encode [("symbol", symbol)])
    None ([], [])
    (decoded Decode_MarketOrders
       (λ result, (Ask (Result result), Bid (Result result)))) w.
Proof. unfold Client_MarketOrders. same_run. Qed.

Lemma MarketTrades_call c symbol w :
  Client_MarketTrades c symbol w =
  call None (httpClient c) "GET"
    (baseURL +:+ "/v1/trades?" +:+ url_Values_Encode [("symbol", symbol)])
    None []
    (decoded Decode_MarketTrades (λ result, LatestTrades (Result result))) w.
Proof. unfold Client_MarketTrades. same_run. Qed.

Lemma Candles_call c symbol resolution from to w :
  summary_Candles (Client_Candles c symbol resolution from to w) =
  let run :=
    call None http_DefaultClient "GET"
      (Candles_URL symbol resolution from to) None (Returned [])
      (decoded Decode_Candles
         (λ result, Candles_loop result 0 (res_T result) [])) w in
  (match run.1 with
   | (Returned _, e) => Returned e
   | (IndexOutOfRange i n, _) => IndexOutOfRange i n
   end, run.2).
Proof.
  unfold Client_Candles, summary_Candles, Candles_URL. same_run.
Qed.

Lemma Profile_call c w :
  Client_Profile c w =
  authenticated c None
    (call (Some (apiKey c)) (httpClient c) "GET"
       (baseURL +:+ "/v1/account/profile") None None
       (decoded Decode_Profile Result)) w.
Proof. unfold Client_Profile. same_run. Qed.

Lemma Balances_call c w :
  Client_Balances c w =
  authenticated c ∅
    (call (Some (apiKey c)) (httpClient c) "GET"
       (baseURL +:+ "/v1/account/balances") None ∅
       (decoded Decode_Balances (λ result, Balances (Result result)))) w.
Proof. unfold Client_Balances. same_run. Qed.

Lemma FeeLevels_call c w :
  Client_FeeLevels c w =
  authenticated c ∅
    (call (Some (apiKey c)) (httpClient c) "GET"
       (baseURL +:+ "/v1/account/fee") None ∅
       (decoded Decode_FeeLevels Result)) w.
Proof. unfold Client_FeeLevels. same_run. Qed.

Lemma BankingCards_call c w :
  Client_BankingCards c w =
  authenticated c []
    (call (Some (apiKey c)) (httpClient c) "GET"
       (baseURL +:+ "/v1/account/card-numbers") None []
       (decoded Decode_BankingCards Result)) w.
Proof. unfold Client_BankingCards. same_run. Qed.

Lemma BankAccounts_call c w :
  Client_BankAccounts c w =
  authenticated c []
    (call (Some (apiKey c)) (httpClient c) "GET"
       (baseURL +:+ "/v1/account/ibans") None []
       (decoded Decode_BankAccounts Result)) w.
Proof. unfold Client_BankAccounts. same_run. Qed.

Lemma PlaceOrder_call c p w :
  Client_PlaceOrder c p w =
  authenticated c None
    (call (Some (apiKey c)) (httpClient c) "POST"
       (baseURL +:+ "/v1/account/orders")
       (Some (json_Marshal_OrderParams p)) None
       (decoded Decode_Order Result)) w.
Proof. unfold Client_PlaceOrder. same_run. Qed.

Lemma CancelOrder_call c clientOrderID w :
  summary_CancelOrder (Client_CancelOrder c clientOrderID w) =
  summary
    (authenticated c ()
       (call (Some (apiKey c)) (httpClient c) "DELETE"
          (baseURL +:+ "/v1/account/orders?" +:+
           url_Values_Encode [("clientOrderId", clientOrderID)])
          None () (λ _, inr ())) w).
Proof. unfold Client_CancelOrder, summary_CancelOrder, summary. same_run. Qed.

Lemma Order_call c clientOrderID w :
  Client_Order c clientOrderID w =
  authenticated c None
    (call (Some (apiKey c)) (httpClient c) "GET"
       (baseURL +:+ "/v1/account/orders/" +:+ clientOrderID) None None
       (decoded Decode_Order Result)) w.
Proof. unfold Client_Order. same_run. Qed.

Lemma OpenOrders_call c symbol w :
  Client_OpenOrders c symbol w =
  authenticated c []
    (call (Some (apiKey c)) (httpClient c) "GET"
       (baseURL +:+ "/v1/account/openOrders?" +:+
        url_Values_Encode (given [("symbol", symbol)]))
       None []
       (decoded Decode_OpenOrders (λ result, Orders (Result result)))) w.
Proof.
  unfold Client_OpenOrders, given. rewrite filter_cons, filter_nil. simpl.
  destruct (decide (symbol ≠ "")); same_run.
Qed.

Lemma Trades_call c symbol side w :
  Client_Trades c symbol side w =
  authenticated c []
    (call (Some (apiKey c)) (httpClient c) "GET"
       (baseURL +:+ "/v1/account/trades?" +:+
        url_Values_Encode (given [("symbol", symbol); ("side", side)]))
       None []
       (decoded Decode_Trades
          (λ result, AccountLatestTrades (Result result)))) w.
Proof.
  unfold Client_Trades, given. rewrite !filter_cons, filter_nil. simpl.
  destruct (decide (symbol ≠ "")), (decide (side ≠ "")); same_run.
Qed.

End runs.

(** *** Properties of every run *)

(** Rewrites each method into its call. *)
Ltac to_call :=
  unfold Candles_run;
  rewrite ?Markets_call, ?Currencies_call, ?MarketOrders_call,
    ?MarketTrades_call, ?Candles_call, ?Profile_call, ?Balances_call,
    ?FeeLevels_call, ?BankingCards_call, ?BankAccounts_call,
    ?PlaceOrder_call, ?CancelOrder_call, ?Order_call, ?OpenOrders_call,
    ?Trades_call.

(** Splits a call into the ways it can end. *)
Ltac ways :=
  unfold summary, authenticated, call, answer_result, decoded, request_of,
    mret, IO_ret;
  simpl; try case_decide; simpl;
  try (destruct (url_Parse_error _) as [?|] eqn:?; simpl);
  try (destruct (RoundTrip _ _ _) as [?|resp] eqn:?; simpl);
  try match goal with
      | |- context [decide (StatusCode ?r ≠ _)] =>
          destruct (decide (StatusCode r ≠ 200)); simpl
      end;
  repeat match goal with
         | |- context [sum_map _ _ ?x] => destruct x eqn:?; simpl
         | |- context [match ?d (Body ?r) with _ => _ end] =>
             destruct (d (Body r)) eqn:?; simpl
         | |- context [Candles_loop ?r ?i ?ts ?acc] =>
             destruct (Candles_loop r i ts acc) eqn:?; simpl
         end.

Ltac events Hin :=
  simpl in Hin; rewrite ?elem_of_cons, ?elem_of_nil in Hin;
  destruct_or?; simplify_eq/=.

Ltac each_run := unfold all_runs, open_runs, authenticated_runs; simpl;
  repeat apply Forall_cons_2; try apply Forall_nil_2; to_call; ways.

Section run_properties.
Context {payloads : Payloads} {net : Net}.

(** X1.  A transport error ends the call: the method returns the error
    wrapped as the cause of a new `request failed` error. *)
Theorem transport_error_is_wrapped
    (c : Client) (w : World) (p : ptr OrderParams)
    (clientOrderID symbol resolution side : string) (from to : Time) :
  Forall (λ s, ∀ h req err, ev_Do h req (inl err) ∈ s.2 →
                 s.1 = Returned (Some (wrapRequestError err)))
         (all_runs c w p clientOrderID symbol resolution side from to).
Proof.
  each_run; intros h req err Hin; events Hin; done.
Qed.

(** X2.  When the URL a method builds does not parse, the method returns
    the error of [http.NewRequest] wrapped, and nothing is sent: the run
    consists of the one attempt to build the request. *)
Theorem unparsable_URL_sends_nothing
    (c : Client) (w : World) (p : ptr OrderParams)
    (clientOrderID symbol resolution side : string) (from to : Time) :
  Forall (λ s, ∀ verb url body err,
                 ev_NewRequest verb url body ∈ s.2 →
                 url_Parse_error url = Some err →
                 s.1 = Returned (Some (wrapRequestError err)) ∧
                 s.2 = [ev_NewRequest verb url body])
         (all_runs c w p clientOrderID symbol resolution side from to).
Proof.
  each_run; intros verb url body err Hin Hurl; events Hin;
    try done; congruence.
Qed.

(** X3.  No method retries or sends twice: a run builds at most one
    request and has at most one exchange, which is of the request as
    built and carries the answer of the transport. *)
Theorem at_most_one_exchange
    (c : Client) (w : World) (p : ptr OrderParams)
    (clientOrderID symbol resolution side : string) (from to : Time) :
  Forall (λ s, one_exchange w s.2)
         (all_runs c w p clientOrderID symbol resolution side from to).
Proof.
  each_run; unfold one_exchange;
    first [ by left
          | match goal with
            | Hrt : RoundTrip _ ?h ?r = _ |- _ =>
                right; eexists _, _, _; right; exists h, r;
                rewrite Hrt; done
            end
          | right; eexists _, _, _; left; reflexivity ].
Qed.

(** X4.  A method returns a nil error only after a response with status
    200: never without an exchange, and never after a transport error. *)
Theorem nil_error_only_after_200
    (c : Client) (w : World) (p : ptr OrderParams)
    (clientOrderID symbol resolution side : string) (from to : Time) :
  Forall (λ s, s.1 = Returned None →
               ∃ h req resp, answered s.2 h req resp ∧ StatusCode resp = 200)
         (all_runs c w p clientOrderID symbol resolution side from to).
Proof.
  each_run; intros Hnil; try discriminate;
    do 3 eexists; (split; [unfold answered; rewrite !elem_of_cons; eauto|]);
    simpl; by apply dec_stable.
Qed.

Lemma runs_on_transport
    (c : Client) (w : World) (p : ptr OrderParams)
    (clientOrderID symbol side : string) :
  Forall (λ s, ∀ h req answer, ev_Do h req answer ∈ s.2 → h = httpClient c)
         (open_runs c w symbol
          ++ authenticated_runs c w p clientOrderID symbol side).
Proof.
  each_run; intros h req answer Hin; events Hin; done.
Qed.

(** X5.  Every method but [Candles] sends on the transport of the
    client. *)
Theorem exchanges_on_configured_transport
    (c : Client) (w : World) (p : ptr OrderParams)
    (clientOrderID symbol side : string) :
  Forall (λ s, ∀ h req answer, ev_Do h req answer ∈ s.2 → h = httpClient c)
         (open_runs c w symbol
          ++ authenticated_runs c w p clientOrderID symbol side).
Proof. apply runs_on_transport. Qed.

(** With a credential, an authenticated run does not end with
    [ErrMissingAPIKey] and sends the credential as its only header;
    without one, it ends with [ErrMissingAPIKey] and has no event. *)
Lemma authenticated_runs_with_key
    (c : Client) (w : World) (p : ptr OrderParams)
    (clientOrderID symbol side : string) :
  apiKey c ≠ "" →
  Forall (λ s, s.1 ≠ Returned (Some ErrMissingAPIKey) ∧
               ∀ h req answer, ev_Do h req answer ∈ s.2 →
                 req_Header req = [(apiKeyHeader, apiKey c)])
         (authenticated_runs c w p clientOrderID symbol side).
Proof.
  intros Hkey.
  assert (Hcat : ∀ code, Returned (Some (errNonOKResponse code))
                         ≠ Returned (Some ErrMissingAPIKey)).
  { intros code. unfold errNonOKResponse. repeat case_decide; discriminate. }
  each_run; try done;
    (split; [first [ done | apply Hcat ]
            | intros h req answer Hin; events Hin; done ]).
Qed.

Lemma authenticated_runs_without_key
    (c : Client) (w : World) (p : ptr OrderParams)
    (clientOrderID symbol side : string) :
  apiKey c = "" →
  Forall (λ s, s = (Returned (Some ErrMissingAPIKey), []))
         (authenticated_runs c w p clientOrderID symbol side).
Proof. intros Hkey. each_run; done. Qed.

(** X6.  The five public methods send no header at all, whatever
    credential the client holds; the ten authenticated methods send the
    stored credential as [x-api-key] and no other header, and the
    credential they send is never empty. *)
Theorem credential_only_on_authenticated_requests
    (c : Client) (w : World) (p : ptr OrderParams)
    (clientOrderID symbol resolution side : string) (from to : Time) :
  Forall (λ s, ∀ h req answer, ev_Do h req answer ∈ s.2 →
                 req_Header req = [])
         (open_runs c w symbol
          ++ [Candles_run c w symbol resolution from to]) ∧
  Forall (λ s, ∀ h req answer, ev_Do h req answer ∈ s.2 →
                 req_Header req = [(apiKeyHeader, apiKey c)] ∧
                 apiKey c ≠ "")
         (authenticated_runs c w p clientOrderID symbol side).
Proof.
  split; each_run; intros h req answer Hin; events Hin; done.
Qed.

(** X7.  [PlaceOrder] sends a POST with the serialized parameters,
    [CancelOrder] a DELETE without a body, and each of the thirteen other
    methods a GET without a body. *)
Theorem verbs_and_bodies
    (c : Client) (w : World) (p : ptr OrderParams)
    (clientOrderID symbol resolution side : string) (from to : Time) :
  sends "POST" (Some (json_Marshal_OrderParams p))
    (Client_PlaceOrder c p w).2 ∧
  sends "DELETE" None (Client_CancelOrder c clientOrderID w).2 ∧
  Forall (λ s, sends "GET" None s.2)
    (open_runs c w symbol ++ [Candles_run c w symbol resolution from to] ++
     [summary (Client_Profile c w); summary (Client_Balances c w);
      summary (Client_FeeLevels c w); summary (Client_BankingCards c w);
      summary (Client_BankAccounts c w);
      summary (Client_Order c clientOrderID w);
      summary (Client_OpenOrders c symbol w);
      summary (Client_Trades c symbol side w)]).
Proof.
  split_and!.
  - change (sends "POST" (Some (json_Marshal_OrderParams p))
              (summary (Client_PlaceOrder c p w)).2).
    to_call; ways; intros h req answer Hin; events Hin; done.
  - change (sends "DELETE" None
              (summary_CancelOrder (Client_CancelOrder c clientOrderID w)).2).
    to_call; ways; intros h req answer Hin; events Hin; done.
  - each_run; intros h req answer Hin; events Hin; done.
Qed.

(** X8.  Every request a method builds, sent or not, is for a URL under
    the fixed origin and version: the credential never goes elsewhere. *)
Theorem requests_stay_under_baseURL
    (c : Client) (w : World) (p : ptr OrderParams)
    (clientOrderID symbol resolution side : string) (from to : Time) :
  Forall (λ s, ∀ verb url body, ev_NewRequest verb url body ∈ s.2 →
                 ∃ path, url = "https://api.wallex.ir/v1/" +:+ path)
         (all_runs c w p clientOrderID symbol resolution side from to).
Proof.
  each_run; intros verb url body Hin; events Hin;
    eexists; unfold Candles_URL; reflexivity.
Qed.

(** X9.  An authenticated method returns [ErrMissingAPIKey] exactly when
    the stored credential is empty; a public method never returns it. *)
Theorem ErrMissingAPIKey_iff_no_credential
    (c : Client) (w : World) (p : ptr OrderParams)
    (clientOrderID symbol resolution side : string) (from to : Time) :
  Forall (λ s, s.1 = Returned (Some ErrMissingAPIKey) ↔ apiKey c = "")
         (authenticated_runs c w p clientOrderID symbol side) ∧
  Forall (λ s, s.1 ≠ Returned (Some ErrMissingAPIKey))
         (open_runs c w symbol
          ++ [Candles_run c w symbol resolution from to]).
Proof.
  assert (Hcat : ∀ code, Returned (Some (errNonOKResponse code))
                         ≠ Returned (Some ErrMissingAPIKey)).
  { intros code. unfold errNonOKResponse. repeat case_decide; discriminate. }
  split; each_run; try (split; [|done]); try intros Heq; try done;
    by apply Hcat in Heq.
Qed.

End run_properties.

(** *** What a response 200 gives *)

Ltac typed_run :=
  unfold returns_result, wraps_decode_error;
  intros h0 req0 resp0 ? Hin Hcode Hdec; revert Hin;
  to_call; ways; intros Hin; unfold answered in Hin; events Hin;
  try done; try congruence;
  try (match goal with
       | H1 : ?d = inr _, H2 : ?d = inr _ |- _ =>
           rewrite H1 in H2; injection H2 as <-
       end; done).

Section typed_results.
Context {payloads : Payloads} {net : Net}.

(** X10.  For a response 200 whose body decodes, each method returns what
    it decoded and a nil error: [Currencies], [Profile], [FeeLevels],
    [BankingCards], [BankAccounts], [PlaceOrder] and [Order] the [result]
    of the envelope, [MarketOrders] its [ask] and [bid], [MarketTrades],
    [OpenOrders] and [Trades] the list inside it. *)
Theorem decoded_result_is_returned
    (c : Client) (w : World) (p : ptr OrderParams)
    (clientOrderID symbol side : string) :
  returns_result Decode_Currencies Result (Client_Currencies c w) ∧
  returns_result Decode_MarketOrders
    (λ result, (Ask (Result result), Bid (Result result)))
    (Client_MarketOrders c symbol w) ∧
  returns_result Decode_MarketTrades (λ result, LatestTrades (Result result))
    (Client_MarketTrades c symbol w) ∧
  returns_result Decode_Profile Result (Client_Profile c w) ∧
  returns_result Decode_FeeLevels Result (Client_FeeLevels c w) ∧
  returns_result Decode_BankingCards Result (Client_BankingCards c w) ∧
  returns_result Decode_BankAccounts Result (Client_BankAccounts c w) ∧
  returns_result Decode_Order Result (Client_PlaceOrder c p w) ∧
  returns_result Decode_Order Result (Client_Order c clientOrderID w) ∧
  returns_result Decode_OpenOrders (λ result, Orders (Result result))
    (Client_OpenOrders c symbol w) ∧
  returns_result Decode_Trades (λ result, AccountLatestTrades (Result result))
    (Client_Trades c symbol side w).
Proof. split_and!; typed_run. Qed.

Lemma Candles_decode_error c symbol resolution from to w h req resp err :
  answered (Client_Candles c symbol resolution from to w).2 h req resp →
  StatusCode resp = 200 → Decode_Candles (Body resp) = inl err →
  (Client_Candles c symbol resolution from to w).1 =
    Returned ([], Some (wrapRequestError err)).
Proof.
  unfold Client_Candles, http_Get, http_Client_Get,
    http_Client_Do, http_NewRequest, mbind, mret, IO_bind, IO_ret. simpl.
  repeat (first [ case_decide | case_match ]; simplify_eq/=);
    intros Hin Hcode Hdec; unfold answered in Hin; events Hin;
    try done; congruence.
Qed.

(** X11.  For a response 200 whose body does not decode, each of the
    fourteen decoding methods returns the zero value of its result and the
    error of the decoder wrapped as the cause of a new error; nothing of
    the response is returned. *)
Theorem decode_error_is_wrapped
    (c : Client) (w : World) (p : ptr OrderParams)
    (clientOrderID symbol resolution side : string) (from to : Time) :
  wraps_decode_error Decode_Markets [] (Client_Markets c w) ∧
  wraps_decode_error Decode_Currencies [] (Client_Currencies c w) ∧
  wraps_decode_error Decode_MarketOrders ([], [])
    (Client_MarketOrders c symbol w) ∧
  wraps_decode_error Decode_MarketTrades [] (Client_MarketTrades c symbol w) ∧
  (∀ h req resp err,
     answered (Client_Candles c symbol resolution from to w).2 h req resp →
     StatusCode resp = 200 → Decode_Candles (Body resp) = inl err →
     (Client_Candles c symbol resolution from to w).1 =
       Returned ([], Some (wrapRequestError err))) ∧
  wraps_decode_error Decode_Profile None (Client_Profile c w) ∧
  wraps_decode_error Decode_Balances ∅ (Client_Balances c w) ∧
  wraps_decode_error Decode_FeeLevels ∅ (Client_FeeLevels c w) ∧
  wraps_decode_error Decode_BankingCards [] (Client_BankingCards c w) ∧
  wraps_decode_error Decode_BankAccounts [] (Client_BankAccounts c w) ∧
  wraps_decode_error Decode_Order None (Client_PlaceOrder c p w) ∧
  wraps_decode_error Decode_Order None (Client_Order c clientOrderID w) ∧
  wraps_decode_error Decode_OpenOrders [] (Client_OpenOrders c symbol w) ∧
  wraps_decode_error Decode_Trades [] (Client_Trades c symbol side w).
Proof.
  split_and!; first [ apply Candles_decode_error | typed_run ].
Qed.

(** X12.  [CancelOrder] does not read the body: a response 200 gives a
    nil error whatever the body holds. *)
Theorem CancelOrder_ignores_body
    (c : Client) (w : World) (clientOrderID : string) h req resp :
  answered (Client_CancelOrder c clientOrderID w).2 h req resp →
  StatusCode resp = 200 →
  (Client_CancelOrder c clientOrderID w).1 = None.
Proof.
  change ((Client_CancelOrder c clientOrderID w).2) with
    (summary_CancelOrder (Client_CancelOrder c clientOrderID w)).2.
  revert h req resp. intros h0 req0 resp0 Hin Hcode.
  assert (Hret : (summary_CancelOrder
                    (Client_CancelOrder c clientOrderID w)).1 = Returned None);
    [|by injection Hret].
  revert Hin. to_call; ways; intros Hin; unfold answered in Hin; events Hin;
    done.
Qed.
End typed_results.

Section more_runs.
Context {payloads : Payloads} {net : Net}.

(** X13.  [New] sends nothing and picks the transport: the one given in
    the options, [http.DefaultClient] when none is given.  Every exchange
    of the fourteen methods other than [Candles] on the new client is on
    that transport. *)
Theorem New_chooses_transport
    (opt : ClientOptions) (w : World) (p : ptr OrderParams)
    (clientOrderID symbol side : string) :
  let c := (New opt w).1 in
  let chosen := default http_DefaultClient (HTTPClient opt) in
  (New opt w).2 = [] ∧
  httpClient c = chosen ∧
  Forall (λ s, ∀ h req answer, ev_Do h req answer ∈ s.2 → h = chosen)
         (open_runs c w symbol
          ++ authenticated_runs c w p clientOrderID symbol side).
Proof.
  intros c chosen.
  assert (Hchosen : httpClient c = chosen).
  { subst c chosen. unfold New. simpl. by destruct (HTTPClient opt). }
  split_and!; [done | done |].
  rewrite <- Hchosen.
  apply (runs_on_transport c w p clientOrderID symbol side).
Qed.

(** X14.  The credential of a client from [New] is [WALLEX_API_KEY] or
    nothing.  With an empty [APIKey] and the variable set, the ten
    authenticated methods send the value of the variable as [x-api-key]
    and none of them returns [ErrMissingAPIKey].  With the variable unset
    or empty, or with an [APIKey] that is not empty, whatever the
    variable holds, all ten return [ErrMissingAPIKey] and send nothing. *)
Theorem New_credential_is_the_environment
    (opt : ClientOptions) (w : World) (p : ptr OrderParams)
    (clientOrderID symbol side : string) :
  let c := (New opt w).1 in
  let env := os_Getenv w "WALLEX_API_KEY" in
  (APIKey opt = "" → env ≠ "" →
     Forall (λ s, s.1 ≠ Returned (Some ErrMissingAPIKey) ∧
                  ∀ h req answer, ev_Do h req answer ∈ s.2 →
                    req_Header req = [(apiKeyHeader, env)])
            (authenticated_runs c w p clientOrderID symbol side)) ∧
  (APIKey opt ≠ "" ∨ env = "" →
     Forall (λ s, s = (Returned (Some ErrMissingAPIKey), []))
            (authenticated_runs c w p clientOrderID symbol side)).
Proof.
  intros c env.
  assert (Hkey : apiKey c =
                 if decide (APIKey opt = "") then env else "") by done.
  split.
  - intros Hopt Henv. rewrite decide_True in Hkey by done.
    rewrite <- Hkey in Henv |- *.
    by apply authenticated_runs_with_key.
  - intros Hno. apply authenticated_runs_without_key.
    rewrite Hkey. case_decide; [|done]. by destruct Hno.
Qed.

Lemma told_by_errNonOKResponse (code : Z) :
  code ≠ 200 → told_by (errNonOKResponse code) code.
Proof.
  intros Hcode.
  unfold errNonOKResponse, http_StatusBadRequest, http_StatusUnauthorized,
    http_StatusForbidden, http_StatusNotFound.
  repeat case_decide; simpl; try done.
  rewrite !not_elem_of_cons. split_and!; try done. apply not_elem_of_nil.
Qed.

(** X15.  An error a method returns tells where it comes from.
    [ErrMissingAPIKey] is returned only by a run that sent nothing; an
    error with a cause is [request failed]; and each of [ErrBadRequest],
    [ErrUnauthorized], [ErrForbidden] and [ErrNotFound] is returned only
    after a response with status 400, 401, 403 and 404, [ErrUnknown] only
    after a response whose status is none of these and not 200. *)
Theorem returned_error_tells_its_origin
    (c : Client) (w : World) (p : ptr OrderParams)
    (clientOrderID symbol resolution side : string) (from to : Time) :
  Forall (λ s, ∀ e, s.1 = Returned (Some e) →
            (e = ErrMissingAPIKey ∧ s.2 = []) ∨
            (∃ cause, e = wrapRequestError cause) ∨
            (∃ h req resp, answered s.2 h req resp ∧
                           told_by e (StatusCode resp)))
         (all_runs c w p clientOrderID symbol resolution side from to).
Proof.
  each_run; intros returned He; simplify_eq/=;
    first [ by left
          | by right; left; eexists
          | right; right; do 3 eexists;
            (split; [unfold answered; rewrite !elem_of_cons; eauto|]);
            by apply told_by_errNonOKResponse ].
Qed.

(** X16.  [OpenOrders] and [Trades] put into the query the filters that
    were given and leave out the empty ones, so that no filter at all
    gives the empty query; [MarketOrders], [MarketTrades] and
    [CancelOrder] always put their parameter, empty or not. *)
Theorem empty_filters_are_left_out
    (c : Client) (w : World) (clientOrderID symbol side : string) :
  (∀ verb url body,
     ev_NewRequest verb url body ∈ (Client_OpenOrders c symbol w).2 →
     url = baseURL +:+ "/v1/account/openOrders?" +:+
           url_Values_Encode (given [("symbol", symbol)])) ∧
  (∀ verb url body,
     ev_NewRequest verb url body ∈ (Client_Trades c symbol side w).2 →
     url = baseURL +:+ "/v1/account/trades?" +:+
           url_Values_Encode (given [("symbol", symbol); ("side", side)])) ∧
  given [("symbol", ""); ("side", "")] = [] ∧
  (∀ verb url body,
     ev_NewRequest verb url body ∈ (Client_MarketOrders c symbol w).2 →
     url = baseURL +:+ "/v1/depth?" +:+
           url_Values_Encode [("symbol", symbol)]) ∧
  (∀ verb url body,
     ev_NewRequest verb url body ∈ (Client_MarketTrades c symbol w).2 →
     url = baseURL +:+ "/v1/trades?" +:+
           url_Values_Encode [("symbol", symbol)]) ∧
  (∀ verb url body,
     ev_NewRequest verb url body ∈ (Client_CancelOrder c clientOrderID w).2 →
     url = baseURL +:+ "/v1/account/orders?" +:+
           url_Values_Encode [("clientOrderId", clientOrderID)]).
Proof.
  split_and!; [| |done| | |]; intros verb url body.
  - change (Client_OpenOrders c symbol w).2
      with (summary (Client_OpenOrders c symbol w)).2.
    to_call; ways; intros Hin; events Hin; done.
  - change (Client_Trades c symbol side w).2
      with (summary (Client_Trades c symbol side w)).2.
    to_call; ways; intros Hin; events Hin; done.
  - change (Client_MarketOrders c symbol w).2
      with (summary (Client_MarketOrders c symbol w)).2.
    to_call; ways; intros Hin; events Hin; done.
  - change (Client_MarketTrades c symbol w).2
      with (summary (Client_MarketTrades c symbol w)).2.
    to_call; ways; intros Hin; events Hin; done.
  - change (Client_CancelOrder c clientOrderID w).2
      with (summary_CancelOrder (Client_CancelOrder c clientOrderID w)).2.
    to_call; ways; intros Hin; events Hin; done.
Qed.

(** X17.  What [Error()] prints for an error a method returns is one of
    the six fixed texts of the package-level errors, or
    [wallex: request failed: ] followed by the text of the cause. *)
Theorem returned_error_text
    (cause_text : GoError → string)
    (c : Client) (w : World) (p : ptr OrderParams)
    (clientOrderID symbol resolution side : string) (from to : Time) :
  Forall (λ s, ∀ e, s.1 = Returned (Some e) →
            Error_Error cause_text (Error_at e) ∈ category_texts ∨
            ∃ cause, Error_Error cause_text (Error_at e) =
                       "wallex: request failed: " +:+ cause_text cause)
         (all_runs c w p clientOrderID symbol resolution side from to).
Proof.
  assert (Hcat : ∀ code,
            Error_Error cause_text (Error_at (errNonOKResponse code))
              ∈ category_texts).
  { intros code. unfold errNonOKResponse, category_texts.
    repeat case_decide; simpl; rewrite !elem_of_cons; auto 10. }
  each_run; intros returned He; simplify_eq/=;
    first [ left; apply Hcat
          | left; unfold category_texts; rewrite !elem_of_cons; by auto
          | right; eexists; reflexivity ].
Qed.

(** X18.  [Candles] asks for whole seconds: two intervals whose ends have
    the same [Unix()] seconds give the same run, whatever their
    nanoseconds. *)
Theorem Candles_sends_whole_seconds
    (c : Client) (w : World) (symbol resolution : string)
    (from to from' to' : Time) :
  Time_Unix from = Time_Unix from' →
  Time_Unix to = Time_Unix to' →
  Client_Candles c symbol resolution from to w =
    Client_Candles c symbol resolution from' to' w.
Proof. intros Hfrom Hto. unfold Client_Candles. by rewrite Hfrom, Hto. Qed.
End more_runs.

(** * More on Number *)

Module NumberMore.
Import Number.
Section number_more.
Context {lib : NumberLib} {lib_spec : NumberLibSpec}.

(** What [%f] prints is never the empty string. *)
Lemma Sprintf_f_not_empty (f : float64) : fmt_Sprintf_f f ≠ "".
Proof. apply NumberFacts.parsed_not_empty, ParseFloat_Sprintf_f. Qed.

(** X19.  After [UnmarshalJSON] the number is defined exactly when the
    payload was a JSON string or a JSON number that [ParseFloat] accepts:
    in particular a bare number in range never decodes to an undefined
    [Number], and what the receiver held before plays no part. *)
Theorem defined_iff_payload_is_numeric (n : Number) (data : list byte) :
  IsUndefined (UnmarshalJSON n data).1 = false ↔
  ∃ lit, (json_scan data = Some (JString lit) ∨
          json_scan data = Some (JNumber lit)) ∧
         (strconv_ParseFloat lit).2 = None.
Proof.
  unfold IsUndefined. rewrite bool_decide_eq_false.
  unfold UnmarshalJSON, json_Unmarshal_string, json_Unmarshal_float64.
  destruct (json_scan data) as [[|b|lit|s|xs|kvs]|] eqn:Hscan; simpl;
    rewrite ?ParseFloat_empty; simpl.
  - split; [done|]. intros (lit & [?|?] & _); discriminate.
  - split; [done|]. intros (lit & [?|?] & _); discriminate.
  - destruct (strconv_ParseFloat lit) as [v [e|]] eqn:Hparse; simpl.
    + split; [done|]. intros (lit' & [?|?] & Hok); simplify_eq.
      by rewrite Hparse in Hok.
    + split; [|intros _; apply Sprintf_f_not_empty].
      intros _. exists lit. split; [by right|]. by rewrite Hparse.
  - destruct (strconv_ParseFloat s) as [v [e|]] eqn:Hparse; simpl.
    + split; [done|]. intros (lit' & [?|?] & Hok); simplify_eq.
      by rewrite Hparse in Hok.
    + split.
      * intros _. exists s. split; [by left|]. by rewrite Hparse.
      * intros _. apply NumberFacts.parsed_not_empty. by rewrite Hparse.
  - split; [done|]. intros (lit & [?|?] & _); discriminate.
  - split; [done|]. intros (lit & [?|?] & _); discriminate.
  - split; [done|]. intros (lit & [?|?] & _); discriminate.
Qed.

(** X20.  A [Number] that [UnmarshalJSON] stored survives a round trip:
    written as a JSON string, as [encoding/json] writes a value of a
    string type, it decodes to itself, defined or not. *)
Theorem UnmarshalJSON_round_trip
    (n m : Number) (data again : list byte) :
  json_scan again = Some (JString (UnmarshalJSON n data).1) →
  UnmarshalJSON m again = ((UnmarshalJSON n data).1, None).
Proof.
  intros Hagain.
  assert (Hstored : (UnmarshalJSON n data).1 = "" ∨
                    (strconv_ParseFloat (UnmarshalJSON n data).1).2 = None).
  { unfold UnmarshalJSON, json_Unmarshal_string, json_Unmarshal_float64.
    destruct (json_scan data) as [[|b|lit|s|xs|kvs]|]; simpl;
      rewrite ?ParseFloat_empty; simpl; auto.
    - destruct (strconv_ParseFloat lit) as [v [e|]]; simpl; auto.
      right. apply ParseFloat_Sprintf_f.
    - destruct (strconv_ParseFloat s) as [v [e|]] eqn:Hparse; simpl; auto.
      right. by rewrite Hparse. }
  revert Hagain Hstored. generalize (UnmarshalJSON n data).1. intros stored.
  intros Hagain Hstored.
  unfold UnmarshalJSON, json_Unmarshal_string. rewrite Hagain. simpl.
  destruct Hstored as [->|Hok].
  - by rewrite ParseFloat_empty.
  - destruct (strconv_ParseFloat stored) as [v [e|]]; [discriminate|done].
Qed.
End number_more.
End NumberMore.

(** * More runs against the stubs *)

Module MoreStubRuns.
Import Stub.

(** The run with index [i] in a list of runs that all have a property. *)
Ltac run_at Hall i Hrun :=
  pose proof (Forall_lookup_1 _ _ i _ Hall eq_refl) as Hrun;
  cbv beta in Hrun.

Ltac found := simpl; rewrite !elem_of_cons; auto.

(** From the error of a summary to the error the method returned. *)
Ltac returned Hret :=
  exact (f_equal (λ o : outcome (option error),
                    match o with
                    | Returned e => e
                    | IndexOutOfRange _ _ => None
                    end) Hret).

(** Offline, [Profile] returns the refusal wrapped. *)
Lemma transport_error_is_wrapped_witness :
  (Client_Profile (client "k") Failing.offline).1.2 =
    Some (wrapRequestError Failing.refused).
Proof.
  pose proof (transport_error_is_wrapped (client "k") Failing.offline
                (Some order) "id" "BTCUSDT" Hour "BUY"
                (time_Unix 0 0) (time_Unix 60 0)) as Hall.
  run_at Hall 5%nat Hrun.
  assert (Hret : (summary (Client_Profile (client "k") Failing.offline)).1 =
                 Returned (Some (wrapRequestError Failing.refused))).
  { eapply (Hrun (http_client_at 1)). found. }
  returned Hret.
Defined.

(** [Markets], answered 200, is the run behind its nil error. *)
Lemma nil_error_only_after_200_witness :
  (Client_Markets (client "k") (world 200 "")).1.2 = None ∧
  ∃ h req resp,
    answered (Client_Markets (client "k") (world 200 "")).2 h req resp ∧
    StatusCode resp = 200.
Proof.
  split; [reflexivity|].
  pose proof (nil_error_only_after_200 (client "k") (world 200 "")
                (Some order) "id" "BTCUSDT" Hour "BUY"
                (time_Unix 0 0) (time_Unix 60 0)) as Hall.
  run_at Hall 0%nat Hrun. apply Hrun. reflexivity.
Defined.

(** [Balances] sends on the transport of the client. *)
Lemma exchanges_on_configured_transport_witness :
  ∃ h req answer,
    ev_Do h req answer ∈ (Client_Balances (client "k") (world 200 "")).2 ∧
    h = http_client_at 1.
Proof.
  pose proof (exchanges_on_configured_transport (client "k") (world 200 "")
                (Some order) "id" "BTCUSDT" "BUY") as Hall.
  run_at Hall 5%nat Hrun.
  eexists _, _, _. split; [found|]. eapply Hrun. found.
Defined.

(** [Currencies] sends no header, [Profile] the credential. *)
Lemma credential_only_on_authenticated_requests_witness :
  (∃ h req answer,
     ev_Do h req answer ∈ (Client_Currencies (client "k") (world 200 "")).2 ∧
     req_Header req = []) ∧
  (∃ h req answer,
     ev_Do h req answer ∈ (Client_Profile (client "k") (world 200 "")).2 ∧
     req_Header req = [("x-api-key", "k")] ∧ apiKey (client "k") ≠ "").
Proof.
  destruct (credential_only_on_authenticated_requests
              (client "k") (world 200 "") (Some order) "id" "BTCUSDT" Hour
              "BUY" (time_Unix 0 0) (time_Unix 60 0)) as [Hopen Hauth].
  run_at Hopen 1%nat Hcurrencies. run_at Hauth 0%nat Hprofile.
  split; eexists _, _, _.
  - split; [found|]. eapply Hcurrencies. found.
  - split; [found|]. eapply Hprofile. found.
Defined.

(** [CancelOrder] sends a DELETE without a body. *)
Lemma verbs_and_bodies_witness :
  ∃ h req answer,
    ev_Do h req answer
      ∈ (Client_CancelOrder (client "k") "id" (world 200 "")).2 ∧
    req_Method req = "DELETE" ∧ req_Body req = None.
Proof.
  destruct (verbs_and_bodies (client "k") (world 200 "") (Some order)
              "id" "BTCUSDT" Hour "BUY" (time_Unix 0 0) (time_Unix 60 0))
    as (_ & Hcancel & _).
  eexists _, _, _. split; [found|]. eapply Hcancel. found.
Defined.

(** The request of [Trades] is for a URL of the service. *)
Lemma requests_stay_under_baseURL_witness :
  ∃ verb url body,
    ev_NewRequest verb url body
      ∈ (Client_Trades (client "k") "BTCUSDT" "BUY" (world 200 "")).2 ∧
    ∃ path, url = "https://api.wallex.ir/v1/" +:+ path.
Proof.
  pose proof (requests_stay_under_baseURL (client "k") (world 200 "")
                (Some order) "id" "BTCUSDT" Hour "BUY"
                (time_Unix 0 0) (time_Unix 60 0)) as Hall.
  run_at Hall 14%nat Hrun.
  eexists _, _, _. split; [found|]. eapply Hrun. found.
Defined.

(** [Order], answered 200, returns the order that was decoded. *)
Lemma decoded_result_is_returned_witness :
  let run := Client_Order (client "k") "id" (world 200 "") in
  (∃ h req, answered run.2 h req {| StatusCode := 200; Body := [] |}) ∧
  run.1 = (Some (), None).
Proof.
  destruct (decoded_result_is_returned (client "k") (world 200 "")
              (Some order) "id" "BTCUSDT" "BUY")
    as (_ & _ & _ & _ & _ & _ & _ & _ & Horder & _).
  split.
  - eexists _, _. unfold answered. found.
  - eapply (Horder _ _ {| StatusCode := 200; Body := [] |}
              {| Result := Some () |});
      [unfold answered; found | reflexivity | reflexivity].
Defined.

(** [CancelOrder], answered 200 with a body that is no JSON, succeeds. *)
Lemma CancelOrder_ignores_body_witness :
  let run := Client_CancelOrder (client "k") "id" (world 200 "<html>") in
  (∃ h req, answered run.2 h req
              {| StatusCode := 200; Body := bytes "<html>" |}) ∧
  run.1 = None.
Proof.
  split.
  - eexists _, _. unfold answered. found.
  - eapply (CancelOrder_ignores_body (client "k") (world 200 "<html>") "id"
              _ _ {| StatusCode := 200; Body := bytes "<html>" |});
      [unfold answered; found | reflexivity].
Defined.

(** A client made with its own transport sends [Markets] on it. *)
Lemma New_chooses_transport_witness :
  let opt := {| APIKey := ""; HTTPClient := Some (http_client_at 7) |} in
  ∃ h req answer,
    ev_Do h req answer
      ∈ (Client_Markets (New opt (world 200 "")).1 (world 200 "")).2 ∧
    h = http_client_at 7.
Proof.
  destruct (New_chooses_transport
              {| APIKey := ""; HTTPClient := Some (http_client_at 7) |}
              (world 200 "") (Some order) "id" "BTCUSDT" "BUY")
    as (_ & _ & Hall).
  run_at Hall 0%nat Hrun.
  eexists _, _, _. split; [found|]. eapply Hrun. found.
Defined.

(** With [WALLEX_API_KEY] set, a client made without a key sends the
    variable; a client made with a key sends nothing. *)
Lemma New_credential_is_the_environment_witness :
  let w := world_with_key "env-key" 200 "" in
  (∃ h req answer,
     ev_Do h req answer
       ∈ (Client_Profile
            (New {| APIKey := ""; HTTPClient := None |} w).1 w).2 ∧
     req_Header req = [("x-api-key", "env-key")]) ∧
  summary (Client_Profile
             (New {| APIKey := "mine"; HTTPClient := None |} w).1 w) =
    (Returned (Some ErrMissingAPIKey), []).
Proof.
  split.
  - destruct (New_credential_is_the_environment
                {| APIKey := ""; HTTPClient := None |}
                (world_with_key "env-key" 200 "") (Some order) "id"
                "BTCUSDT" "BUY") as [Hset _].
    specialize (Hset eq_refl ltac:(discriminate)).
    run_at Hset 0%nat Hrun. destruct Hrun as [_ Hrun].
    eexists _, _, _. split; [found|]. eapply Hrun. found.
  - destruct (New_credential_is_the_environment
                {| APIKey := "mine"; HTTPClient := None |}
                (world_with_key "env-key" 200 "") (Some order) "id"
                "BTCUSDT" "BUY") as [_ Hnot].
    specialize (Hnot ltac:(left; discriminate)).
    run_at Hnot 0%nat Hrun. exact Hrun.
Defined.

(** [ErrNotFound] from [Markets] tells of a response 404. *)
Lemma returned_error_tells_its_origin_witness :
  let run := Client_Markets (client "k") (world 404 "") in
  run.1.2 = Some ErrNotFound ∧
  ∃ h req resp, answered run.2 h req resp ∧ StatusCode resp = 404.
Proof.
  split; [reflexivity|].
  pose proof (returned_error_tells_its_origin (client "k") (world 404 "")
                (Some order) "id" "BTCUSDT" Hour "BUY"
                (time_Unix 0 0) (time_Unix 60 0)) as Hall.
  run_at Hall 0%nat Hrun.
  destruct (Hrun ErrNotFound eq_refl)
    as [[Hkey _]|[[cause Hwrap]|Hstatus]];
    [discriminate Hkey | discriminate Hwrap | exact Hstatus].
Defined.

(** [Trades] for every symbol and the side BUY asks for the side only. *)
Lemma empty_filters_are_left_out_witness :
  ∃ verb url body,
    ev_NewRequest verb url body
      ∈ (Client_Trades (client "k") "" "BUY" (world 200 "")).2 ∧
    url = "https://api.wallex.ir/v1/account/trades?side=BUY".
Proof.
  destruct (empty_filters_are_left_out (client "k") (world 200 "")
              "id" "" "BUY") as (_ & Htrades & _).
  eexists _, _, _. split; [found|].
  etrans; [eapply Htrades; found | reflexivity].
Defined.

(** Offline, the error of [Markets] prints the refusal. *)
Lemma returned_error_text_witness :
  let cause_text := λ cause,
    match cause with lib_error text => text | _ => "error" end in
  ∃ e,
    (Client_Markets (client "k") Failing.offline).1.2 = Some e ∧
    (Error_Error cause_text (Error_at e) ∈ category_texts ∨
     ∃ cause, Error_Error cause_text (Error_at e) =
                "wallex: request failed: " +:+ cause_text cause).
Proof.
  pose proof (returned_error_text
                (λ cause, match cause with
                          | lib_error text => text
                          | _ => "error"
                          end)
                (client "k") Failing.offline
                (Some order) "id" "BTCUSDT" Hour "BUY"
                (time_Unix 0 0) (time_Unix 60 0)) as Hall.
  run_at Hall 0%nat Hrun.
  eexists. split; [reflexivity|]. apply Hrun. reflexivity.
Defined.

(** Nanoseconds of the interval do not reach the request. *)
Lemma Candles_sends_whole_seconds_witness :
  Client_Candles (client "k") "BTCUSDT" Hour
    (time_Unix 0 5) (time_Unix 60 999999999) (world 200 "") =
  Client_Candles (client "k") "BTCUSDT" Hour
    (time_Unix 0 0) (time_Unix 60 0) (world 200 "").
Proof.
  apply (Candles_sends_whole_seconds (client "k") (world 200 "")
           "BTCUSDT" Hour (time_Unix 0 5) (time_Unix 60 999999999)
           (time_Unix 0 0) (time_Unix 60 0)); reflexivity.
Defined.
End MoreStubRuns.

(** * Runs against the stub that fails *)

Module FailingRuns.
Import Stub.

Ltac run_at Hall i Hrun :=
  pose proof (Forall_lookup_1 _ _ i _ Hall eq_refl) as Hrun;
  cbv beta in Hrun.

Ltac found := simpl; rewrite !elem_of_cons; auto.

(** The order [%zz] has no URL: the request is not built, nothing is
    sent. *)
Lemma unparsable_URL_sends_nothing_witness :
  let run := @Client_Order _ Failing.net (client "k") "%zz" (world 200 "") in
  @url_Parse_error _ Failing.net Failing.bad_URL =
    Some (lib_error "invalid URL escape") ∧
  (summary run).1 =
    Returned (Some (wrapRequestError (lib_error "invalid URL escape"))) ∧
  (summary run).2 = [ev_NewRequest "GET" Failing.bad_URL None].
Proof.
  split; [reflexivity|].
  pose proof (@unparsable_URL_sends_nothing _ Failing.net
                (client "k") (world 200 "")
                (Some order) "%zz" "BTCUSDT" Hour "BUY"
                (time_Unix 0 0) (time_Unix 60 0)) as Hall.
  run_at Hall 12%nat Hrun.
  eapply Hrun; [found | reflexivity].
Defined.

(** A response 200 with the body [garbage] makes [Order] return the
    error of the decoder, wrapped. *)
Lemma decode_error_is_wrapped_witness :
  let run :=
    @Client_Order _ Failing.net (client "k") "id" (world 200 "garbage") in
  (∃ h req, answered run.2 h req
              {| StatusCode := 200; Body := bytes "garbage" |}) ∧
  run.1 = (None, Some (wrapRequestError json_SyntaxError)).
Proof.
  destruct (@decode_error_is_wrapped _ Failing.net
              (client "k") (world 200 "garbage")
              (Some order) "id" "BTCUSDT" Hour "BUY"
              (time_Unix 0 0) (time_Unix 60 0))
    as (_ & _ & _ & _ & _ & _ & _ & _ & _ & _ & _ & Horder & _).
  split.
  - eexists _, _. unfold answered. found.
  - eapply (Horder _ _ {| StatusCode := 200; Body := bytes "garbage" |});
      [unfold answered; found | reflexivity | reflexivity].
Defined.
End FailingRuns.

(** * More runs of the decoder of Number in the reference model *)

Module MoreRefRuns.
Import Number Ref RefFacts.

(** The bare number 0.1 is defined after decoding, whatever was there. *)
Lemma defined_iff_payload_is_numeric_witness :
  IsUndefined (UnmarshalJSON "old" (payload "0.1")).1 = false.
Proof.
  apply (NumberMore.defined_iff_payload_is_numeric (lib := number_lib)
           "old" (payload "0.1")).
  exists "0.1". split; [right|]; vm_compute; reflexivity.
Defined.

(** The bare price 100.5 is stored as [100.500000]; written back as a
    JSON string it decodes to [100.500000] again. *)
Lemma UnmarshalJSON_round_trip_witness :
  let stored := (UnmarshalJSON "" (payload "100.5")).1 in
  let again := payload (quoted "100.500000") in
  stored = "100.500000" ∧
  json_scan again = Some (JString stored) ∧
  UnmarshalJSON "" again = (stored, None).
Proof.
  split; [vm_compute; reflexivity|].
  split; [vm_compute; reflexivity|].
  apply (NumberMore.UnmarshalJSON_round_trip (lib := number_lib)
           "" "" (payload "100.5") (payload (quoted "100.500000"))).
  vm_compute; reflexivity.
Defined.
End MoreRefRuns.
